(** * Usage tracking and daily quota of commit-sensei

    A shallow embedding of the usage-tracking code of
    [src/generate-commit.js] ([loadUsage], [saveUsage],
    [resetUsageIfNeeded] and the quota handling inside [main]), and the
    properties the specification states about it.

    Conventions of the embedding.

    - JavaScript values.  The usage object only ever holds [undefined],
      [null], [NaN] and integer numbers, so [value] has exactly these.
      A number is modelled by the integer it denotes.  IEEE doubles are
      exact on integers of magnitude below 2^53 ([safe]): the JSON
      reader refuses to interpret literals outside that range, and
      statements about the exact value of a sum or about printed digits
      carry a [safe] hypothesis.  The tests [now - timestamp > oneDay]
      and [requests >= 1500] need none: rounding is monotone and the two
      bounds are exact doubles.
    - Objects are association lists in insertion order, which is the
      order [JSON.stringify] prints own properties in.
    - [resetUsageIfNeeded], [loadUsage], [saveUsage] and [main] embed
      the functions of these names.  The quota test and the two counter
      updates are written inline in [main]; they are named
      [checkAdmission] and [recordSuccess] here, and the two assignments
      inside [resetUsageIfNeeded] are named [resetIfWindowExpired].
    - [async] functions are run to completion one after another (the
      program awaits every call), in a state monad over the [world]
      (usage file, clock, trace of observable effects) with three
      abnormal outcomes: [process.exit], an uncaught exception, and
      input outside the modelled JSON fragment. *)

From Stdlib Require Import ZArith List String Ascii Bool Lia.
From Stdlib Require Import Decimal DecimalFacts DecimalString DecimalZ.
Import ListNotations.

#[local] Open Scope string_scope.
#[local] Open Scope Z_scope.

(** ** JavaScript values and operators *)

Module JS.

Inductive value : Type :=
| VUndefined
| VNull
| VNaN
| VNum (n : Z).

(** [Number.MAX_SAFE_INTEGER] is 2^53 - 1. *)
Definition MAX_SAFE_INTEGER : Z := 9007199254740991.

Definition safeb (n : Z) : bool :=
  (- MAX_SAFE_INTEGER <=? n) && (n <=? MAX_SAFE_INTEGER).

Definition safe (n : Z) : Prop := - MAX_SAFE_INTEGER <= n <= MAX_SAFE_INTEGER.

(** The abstract operation ToNumber; [None] stands for NaN. *)
Definition ToNumber (v : value) : option Z :=
  match v with
  | VUndefined => None
  | VNull => Some 0
  | VNaN => None
  | VNum n => Some n
  end.

Definition arith (op : Z -> Z -> Z) (a b : value) : value :=
  match ToNumber a, ToNumber b with
  | Some x, Some y => VNum (op x y)
  | _, _ => VNaN
  end.

(** A comparison with NaN on either side is false. *)
Definition relational (op : Z -> Z -> bool) (a b : value) : bool :=
  match ToNumber a, ToNumber b with
  | Some x, Some y => op x y
  | _, _ => false
  end.

(** [a + b] (no operand is a string here), [a - b], [a > b], [a >= b]. *)
Definition js_add : value -> value -> value := arith Z.add.
Definition js_sub : value -> value -> value := arith Z.sub.
Definition js_gt : value -> value -> bool := relational Z.gtb.
Definition js_ge : value -> value -> bool := relational Z.geb.

(** Objects: own properties in insertion order. *)
Definition object : Type := list (string * value).

(** [o.k]: a missing property reads as [undefined]. *)
Fixpoint get (k : string) (o : object) : value :=
  match o with
  | [] => VUndefined
  | (k', v) :: rest => if String.eqb k k' then v else get k rest
  end.

(** [o.k = v]: an existing property keeps its place, a new one goes last. *)
Fixpoint set (k : string) (v : value) (o : object) : object :=
  match o with
  | [] => [(k, v)]
  | (k', v') :: rest =>
      if String.eqb k k' then (k', v) :: rest else (k', v') :: set k v rest
  end.

End JS.

Import JS.

(** ** JSON text *)

Module JSON.

Definition dquote : ascii := "034"%char.
Definition newline : ascii := "010"%char.

Definition str (c : ascii) : string := String c EmptyString.

(** A key between double quotes.  The keys of this program
    ([requests], [tokens], [timestamp], and what [parse] accepts)
    contain no character that [JSON.stringify] would escape. *)
Definition quote (k : string) : string := str dquote ++ k ++ str dquote.

(** A number in decimal, as [JSON.stringify] prints integers below 1e21. *)
Definition number (n : Z) : string := NilZero.string_of_int (Z.to_int n).

(** The text of a property value; [None] when the property is left out
    ([undefined]).  [NaN] is printed as [null]. *)
Definition value_text (v : value) : option string :=
  match v with
  | VUndefined => None
  | VNull => Some "null"
  | VNaN => Some "null"
  | VNum n => Some (number n)
  end.

(** One line per printed property, at indentation 2. *)
Fixpoint members (o : object) : list string :=
  match o with
  | [] => []
  | (k, v) :: rest =>
      match value_text v with
      | None => members rest
      | Some t => ("  " ++ quote k ++ ": " ++ t) :: members rest
      end
  end.

(** [JSON.stringify(o, null, 2)]. *)
Definition stringify (o : object) : string :=
  match members o with
  | [] => "{}"
  | ms => "{" ++ str newline ++ String.concat ("," ++ str newline) ms
              ++ str newline ++ "}"
  end.

(** *** Reading

    [JSON.parse] on the fragment this program writes: one object whose
    values are integer literals or [null], with arbitrary JSON white
    space.  The reader is a single left-to-right pass.  It answers
    [SyntaxError] only when the text read so far was valid JSON and the
    next character cannot continue it, and [Unsupported] as soon as it
    meets the start of JSON outside the fragment (another kind of value,
    a fraction or exponent, an escape in a key, a literal outside the
    safe range, a top-level value that is not an object), without
    looking at what follows: it abstains there, also on texts that
    [JSON.parse] would go on to reject.  The literal [-0]
    is read as 0, which no operation of this program tells apart. *)

Inductive parse_result : Type :=
| Parsed (o : object)
| SyntaxError
| Unsupported.

Inductive pstate : Type :=
| PStart                                   (* before the opening brace *)
| PFirstKey                                (* after the opening brace *)
| PKey (o : object) (k : string)           (* inside a key *)
| PColon (o : object) (k : string)         (* after a key *)
| PValue (o : object) (k : string)         (* after the colon *)
| PNull (o : object) (k : string) (todo : string)  (* inside null *)
| PMinus (o : object) (k : string)         (* after a minus sign *)
| PDigits (o : object) (k : string) (neg : bool) (rev_digits : uint)
| PAfterValue (o : object)                 (* after a value *)
| PNextKey (o : object)                    (* after a comma *)
| PEnd (o : object)                        (* after the closing brace *)
| PSyntaxError
| PUnsupported.

Definition is_ws (c : ascii) : bool :=
  match c with
  | " "%char | "009"%char | "010"%char | "013"%char => true
  | _ => false
  end.

Definition digit (c : ascii) (d : uint) : option uint :=
  uint_of_char c (Some d).

Definition is_digit (c : ascii) : bool :=
  match digit c Nil with Some _ => true | None => false end.

(** The characters that start a JSON value. *)
Definition starts_other_value (c : ascii) : bool :=
  match c with
  | "034"%char | "["%char | "{"%char | "t"%char | "f"%char => true
  | _ => false
  end.

Definition lone_zero (ds : uint) : bool :=
  match ds with
  | D0 Nil => true
  | _ => false
  end.

(** The number whose digits were read, most significant first. *)
Definition number_value (neg : bool) (rev_digits : uint) : Z :=
  Z.of_int (if neg then Neg (rev rev_digits) else Pos (rev rev_digits)).

(** The end of a number literal: the property is defined and the
    character that ended the literal is then read in [PAfterValue]. *)
Definition end_number (o : object) (k : string) (neg : bool)
    (rev_digits : uint) (after : object -> pstate) : pstate :=
  let n := number_value neg rev_digits in
  if safeb n then after (set k (VNum n) o) else PUnsupported.

Definition after_value (o : object) (c : ascii) : pstate :=
  if is_ws c then PAfterValue o
  else match c with
       | ","%char => PNextKey o
       | "}"%char => PEnd o
       | _ => PSyntaxError
       end.

Definition step (st : pstate) (c : ascii) : pstate :=
  match st with
  | PStart =>
      if is_ws c then PStart
      else match c with
           | "{"%char => PFirstKey
           | "n"%char | "-"%char => PUnsupported
           | _ => if starts_other_value c || is_digit c
                  then PUnsupported else PSyntaxError
           end
  | PFirstKey =>
      if is_ws c then PFirstKey
      else match c with
           | "034"%char => PKey [] EmptyString
           | "}"%char => PEnd []
           | _ => PSyntaxError
           end
  | PKey o k =>
      match c with
      | "034"%char =>
          match k with
          | String c0 _ => if is_digit c0 then PUnsupported else PColon o k
          | EmptyString => PColon o k
          end
      | "\"%char => PUnsupported
      | _ => if (nat_of_ascii c <? 32)%nat then PSyntaxError
             else if (127 <? nat_of_ascii c)%nat then PUnsupported
             else PKey o (k ++ str c)
      end
  | PColon o k =>
      if is_ws c then PColon o k
      else match c with
           | ":"%char => PValue o k
           | _ => PSyntaxError
           end
  | PValue o k =>
      if is_ws c then PValue o k
      else match c with
           | "n"%char => PNull o k "ull"
           | "-"%char => PMinus o k
           | _ => match digit c Nil with
                  | Some d => PDigits o k false d
                  | None => if starts_other_value c
                            then PUnsupported else PSyntaxError
                  end
           end
  | PNull o k todo =>
      match todo with
      | String c' EmptyString =>
          if Ascii.eqb c c' then PAfterValue (set k VNull o) else PSyntaxError
      | String c' todo' =>
          if Ascii.eqb c c' then PNull o k todo' else PSyntaxError
      | EmptyString => PSyntaxError
      end
  | PMinus o k =>
      match digit c Nil with
      | Some d => PDigits o k true d
      | None => PSyntaxError
      end
  | PDigits o k neg ds =>
      match digit c ds with
      | Some ds' =>
          if lone_zero ds then PSyntaxError  (* no leading zero *)
          else PDigits o k neg ds'
      | None =>
          match c with
          | "."%char | "e"%char | "E"%char => PUnsupported
          | _ => end_number o k neg ds (fun o' => after_value o' c)
          end
      end
  | PAfterValue o => after_value o c
  | PNextKey o =>
      if is_ws c then PNextKey o
      else match c with
           | "034"%char => PKey o EmptyString
           | _ => PSyntaxError
           end
  | PEnd o => if is_ws c then PEnd o else PSyntaxError
  | PSyntaxError => PSyntaxError
  | PUnsupported => PUnsupported
  end.

Fixpoint run (st : pstate) (s : string) : pstate :=
  match s with
  | EmptyString => st
  | String c s' => run (step st c) s'
  end.

Definition finish (st : pstate) : parse_result :=
  match st with
  | PEnd o => Parsed o
  | PUnsupported => Unsupported
  | _ => SyntaxError                       (* unexpected end of input *)
  end.

Definition parse (s : string) : parse_result := finish (run PStart s).

(** *** Records that are written as they are read back

    Keys of printable ASCII without quote or backslash (what
    [JSON.stringify] prints unescaped) that do not start with a digit,
    no key twice, and every value an integer in the safe range. *)

Definition plain_char (c : ascii) : bool :=
  negb (nat_of_ascii c <? 32)%nat && negb (127 <? nat_of_ascii c)%nat
  && negb (Ascii.eqb c dquote) && negb (Ascii.eqb c "\").

Fixpoint plain_chars (k : string) : bool :=
  match k with
  | EmptyString => true
  | String c k' => plain_char c && plain_chars k'
  end.

Definition plain_key (k : string) : bool :=
  plain_chars k &&
  match k with
  | String c _ => negb (is_digit c)
  | EmptyString => true
  end.

Fixpoint has_key (k : string) (o : object) : bool :=
  match o with
  | [] => false
  | (k', _) :: rest => String.eqb k k' || has_key k rest
  end.

Fixpoint distinct_keys (o : object) : bool :=
  match o with
  | [] => true
  | (k, _) :: rest => negb (has_key k rest) && distinct_keys rest
  end.

Definition integer_value (v : value) : bool :=
  match v with
  | VNum n => safeb n
  | _ => false
  end.

(** A decimal that starts with a digit other than 0. *)
Definition head_nonzero (d : uint) : bool :=
  match d with
  | Nil | D0 _ => false
  | _ => true
  end.

(** The characters that follow a number in a printed object. *)
Definition ends_number (c : ascii) : bool :=
  Ascii.eqb c ","%char || Ascii.eqb c newline.

(** The line of one property in the printed object. *)
Definition line (k : string) (n : Z) : string :=
  "  " ++ quote k ++ ": " ++ number n.

Definition integer_fields (o : object) : bool :=
  forallb (fun kv => plain_key (fst kv) && integer_value (snd kv)) o.

Definition integer_record (o : object) : bool :=
  distinct_keys o && integer_fields o.

End JSON.

(** ** The world the program runs in *)

(** The file [.genai-usage.json] of the working directory. *)
Inductive file : Type :=
| Absent
| Unreadable                  (* exists, but reading it fails *)
| Content (text : string).

(** Observable effects.  [console.error] and [console.log] carry their
    arguments; an error object is represented by its message. *)
Inductive event : Type :=
| ConsoleError (args : list string)
| ConsoleLog (args : list string)
| WriteFile (text : string)   (* a completed write of the usage file *)
| GenerateContent             (* a call of [model.generateContent] *)
| GitCommit (message : string)
| ExecSync (command : string).  (* the text handed to [execSync] *)

Record world : Type := mkWorld {
  usage_file : file;
  writable : bool;            (* does writing the usage file succeed *)
  clock : nat -> Z;           (* successive readings of [Date.now()] *)
  ticks : nat;                (* readings taken so far *)
  trace : list event          (* newest first *)
}.

Definition emit (e : event) (w : world) : world :=
  mkWorld (usage_file w) (writable w) (clock w) (ticks w) (e :: trace w).

Definition written (text : string) (w : world) : world :=
  mkWorld (Content text) (writable w) (clock w) (ticks w)
          (WriteFile text :: trace w).

Definition ticked (w : world) : world :=
  mkWorld (usage_file w) (writable w) (clock w) (S (ticks w)) (trace w).

Inductive outcome (A : Type) : Type :=
| Return (a : A)
| Exit (code : Z)             (* [process.exit(code)] *)
| Throw (error : string)      (* an exception in flight *)
| OutOfModel.                 (* JSON outside the modelled fragment *)

Arguments Return {A} a.
Arguments Exit {A} code.
Arguments Throw {A} error.
Arguments OutOfModel {A}.

Definition M (A : Type) : Type := world -> outcome A * world.

Definition ret {A} (a : A) : M A := fun w => (Return a, w).

Definition bind {A B} (c : M A) (k : A -> M B) : M B :=
  fun w =>
    match c w with
    | (Return a, w') => k a w'
    | (Exit code, w') => (Exit code, w')
    | (Throw e, w') => (Throw e, w')
    | (OutOfModel, w') => (OutOfModel, w')
    end.

Notation "x <- c ;; k" := (bind c (fun x => k))
  (at level 61, c at next level, right associativity).
Notation "c ;; k" := (bind c (fun _ => k))
  (at level 61, right associativity).

Definition throw {A} (error : string) : M A := fun w => (Throw error, w).

(** [try { body } catch (error) { handler }]: only exceptions are
    caught; [process.exit] ends the process inside the [try] too. *)
Definition try_catch {A} (body : M A) (handler : string -> M A) : M A :=
  fun w =>
    match body w with
    | (Throw e, w') => handler e w'
    | r => r
    end.

Definition console_error (args : list string) : M unit :=
  fun w => (Return tt, emit (ConsoleError args) w).

Definition console_log (args : list string) : M unit :=
  fun w => (Return tt, emit (ConsoleLog args) w).

Definition process_exit {A} (code : Z) : M A := fun w => (Exit code, w).

Definition Date_now : M Z := fun w => (Return (clock w (ticks w)), ticked w).

Definition existsSync : M bool :=
  fun w => (Return (match usage_file w with Absent => false | _ => true end), w).

Definition readFileAsync : M string :=
  fun w =>
    match usage_file w with
    | Content text => (Return text, w)
    | Unreadable => (Throw "EACCES: permission denied", w)
    | Absent => (Throw "ENOENT: no such file or directory", w)
    end.

Definition writeFileAsync (text : string) : M unit :=
  fun w =>
    if writable w then (Return tt, written text w)
    else (Throw "EACCES: permission denied", w).

Definition JSON_parse (text : string) : M object :=
  fun w =>
    match JSON.parse text with
    | JSON.Parsed o => (Return o, w)
    | JSON.SyntaxError => (Throw "SyntaxError: Unexpected token", w)
    | JSON.Unsupported => (OutOfModel, w)
    end.

(** ** The usage tracker ([src/generate-commit.js]) *)

Definition RATE_LIMITS_RPD : Z := 1500.

(** The object literal [{ requests: 0, tokens: 0, timestamp: Date.now() }]. *)
Definition fresh (now : Z) : object :=
  [("requests", VNum 0); ("tokens", VNum 0); ("timestamp", VNum now)].

(** [loadUsage] (lines 55-65).  The variable that holds the result is
    either an object or [undefined], here [None]: the [catch] branch
    logs and falls off the end of the function. *)
Definition loadUsage : M (option object) :=
  try_catch
    (found <- existsSync ;;
     if negb found then
       now <- Date_now ;;
       ret (Some (fresh now))
     else
       data <- readFileAsync ;;
       usage <- JSON_parse data ;;
       ret (Some usage))
    (fun error =>
       console_error ["Error loading usage data"; error] ;;
       ret None).

(** [saveUsage] (lines 67-73). *)
Definition saveUsage (usage : object) : M unit :=
  try_catch
    (writeFileAsync (JSON.stringify usage))
    (fun error => console_error ["Error saving usage data:"; error]).

Definition oneDay : Z := 24 * 60 * 60 * 1000.

(** The assignments of lines 78-81 for a given reading of the clock. *)
Definition resetIfWindowExpired (usage : object) (now : Z) : object :=
  if js_gt (js_sub (VNum now) (get "timestamp" usage)) (VNum oneDay)
  then set "timestamp" (VNum now) (set "requests" (VNum 0) usage)
  else usage.

(** [resetUsageIfNeeded] (lines 75-83).  The function updates the
    caller's object in place; the updated object is returned here and
    the caller goes on with it.  Reading [usage.timestamp] of
    [undefined] throws. *)
Definition resetUsageIfNeeded (usage : option object) : M object :=
  now <- Date_now ;;
  match usage with
  | None =>
      throw "TypeError: Cannot read properties of undefined (reading 'timestamp')"
  | Some usage =>
      let usage := resetIfWindowExpired usage now in
      saveUsage usage ;;
      ret usage
  end.

(** The quota test of [main] (lines 115-118). *)
Inductive admission : Type :=
| Allowed
| Denied (reason : string).

Definition checkAdmission (usage : object) : admission :=
  if js_ge (get "requests" usage) (VNum RATE_LIMITS_RPD)
  then Denied "Rate limit exceeded: 1,500 requests per day"
  else Allowed.

(** The two updates of [main] after a generation (lines 184-185):
    [usage.requests += 1; usage.tokens += result.response.tokens]. *)
Definition recordSuccess (usage : object) (tokensUsed : value) : object :=
  let usage := set "requests" (js_add (get "requests" usage) (VNum 1)) usage in
  set "tokens" (js_add (get "tokens" usage) tokensUsed) usage.

(** *** Collaborators of [main] *)

Inductive config_file : Type :=
| ConfigMissing
| ConfigUnreadable (error : string)
| ConfigWithoutKey
| ConfigOk.

(** What [model.generateContent] does: it throws, it returns a result
    without [response], or it returns a response with a text and a
    [tokens] property ([VUndefined] when the response has none). *)
Inductive generation : Type :=
| GenerationThrows (error : string)
| NoResponse
| Response (text : string) (tokens : value).

Record env : Type := mkEnv {
  config : config_file;
  staged_diff : string + string;     (* the diff, or the error of git *)
  generated : generation;
  edit_message : bool;               (* first confirmation *)
  edited_message : string;
  continue_commit : bool;            (* second confirmation *)
  commit_error : option string       (* the error of [git commit] *)
}.

(** [loadAndValidateConfig] (lines 30-53). *)
Definition loadAndValidateConfig (e : env) : M unit :=
  match config e with
  | ConfigMissing =>
      console_error
        ["Configuration file is missing. Please run the set-config command."] ;;
      process_exit 1
  | ConfigUnreadable error =>
      console_error ["Error reading configuration file:"; error] ;;
      process_exit 1
  | ConfigWithoutKey =>
      console_error
        ["API key is missing in the configuration. Please set it up."] ;;
      process_exit 1
  | ConfigOk => ret tt
  end.

Definition execSync_diff (e : env) : M string :=
  match staged_diff e with
  | inl diff => ret diff
  | inr error => throw error
  end.

Definition generateContent (e : env) : M generation :=
  fun w =>
    match generated e with
    | GenerationThrows error => (Throw error, emit GenerateContent w)
    | g => (Return g, emit GenerateContent w)
    end.

Definition execSync_commit (e : env) (message : string) : M unit :=
  match commit_error e with
  | Some error => throw error
  | None => fun w => (Return tt, emit (GitCommit message) w)
  end.

(** The first argument of [console.log] at line 182: the text ends
    with a line feed. *)
Definition generated_banner : string :=
  "Generated commit message: " ++ JSON.str JSON.newline.

(** The part of [main] that follows the quota test (lines 120-213).
    The wording of the prompt and the decoration of the generated title
    with an emoji do not touch the usage object and are left out: the
    message is the generated text. *)
Definition generateAndCommit (e : env) (usage : object) : M unit :=
  loadAndValidateConfig e ;;
  diff <- execSync_diff e ;;
  if String.eqb diff EmptyString then
    console_log ["No changes to commit 🙅"] ;;
    console_log ["Try git add ."] ;;
    process_exit 1
  else
    try_catch
      (result <- generateContent e ;;
       match result with
       | Response text tokens =>
           console_log [generated_banner; text] ;;
           let usage := recordSuccess usage tokens in
           saveUsage usage ;;
           let message := if edit_message e then edited_message e else text in
           if continue_commit e then
             execSync_commit e message ;;
             console_log ["Commit successful."]
           else
             console_log ["Commit aborted."]
       | _ => console_log ["Failed to generate commit message."]
       end)
      (fun error =>
         console_error ["Error:"; error] ;;
         process_exit 1).

(** [main] (lines 111-214). *)
Definition main (e : env) : M unit :=
  usage <- loadUsage ;;
  usage <- resetUsageIfNeeded usage ;;
  match checkAdmission usage with
  | Denied reason =>
      console_error [reason] ;;
      process_exit 1
  | Allowed => generateAndCommit e usage
  end.

(** Did the run call the generation service. *)
Definition is_generate (ev : event) : bool :=
  match ev with GenerateContent => true | _ => false end.

Definition generation_invoked (w : world) : bool :=
  existsb is_generate (trace w).

Definition rate_limit_message : string :=
  "Rate limit exceeded: 1,500 requests per day".

(** The world after [saveUsage usage]. *)
Definition saved (usage : object) (w : world) : world :=
  if writable w then written (JSON.stringify usage) w
  else emit (ConsoleError ["Error saving usage data:";
                           "EACCES: permission denied"]) w.

(** *** Sample inputs *)

Module Sample.

Definition now : Z := 1700000000000.

Definition record (requests tokens timestamp : Z) : object :=
  [("requests", VNum requests); ("tokens", VNum tokens);
   ("timestamp", VNum timestamp)].

(** 1500 requests in a window opened a second ago. *)
Definition exhausted : object := record 1500 7 (now - 1000).

(** 1500 requests in a window opened 25 hours ago. *)
Definition expired : object := record 1500 7 (now - 90000000).

Definition recent : object := record 3 7 (now - 86400000).

Definition world_with (f : file) (can_write : bool) : world :=
  mkWorld f can_write (fun _ => now) 0 [].

Definition holding (usage : object) : world :=
  world_with (Content (JSON.stringify usage)) true.

Definition corrupt : world := world_with (Content "{ oops") true.

(** A run where everything after the quota test works; the response
    carries no [tokens] property. *)
Definition session : env :=
  mkEnv ConfigOk (inl "diff --git a/x b/x") (Response "fix: typo" VUndefined)
        false EmptyString true None.

End Sample.

(** ** What reaches the disk *)







(** ** Consecutive runs

    Each run is a process of its own; the usage file, the clock and the
    trace are what one run leaves to the next. *)
Fixpoint runs (n : nat) (e : env) (w : world) : world :=
  match n with
  | O => w
  | S n' => runs n' e (snd (main e w))
  end.

Definition generation_count (w : world) : nat :=
  List.length (filter is_generate (trace w)).

(** The state between runs once [n] runs have been counted in the
    window that started at [ts], each reporting [k] tokens; [time] is
    the clock. *)
Definition counted (k ts : Z) (time : nat -> Z) (n : nat) (w : world) : Prop :=
  usage_file w =
    Content (JSON.stringify
               [("requests", VNum (Z.of_nat n));
                ("tokens", VNum (Z.of_nat n * k));
                ("timestamp", VNum ts)]) /\
  writable w = true /\ clock w = time.

(** ** The generated title (lines 172-180 of [main]) *)

Module Title.

(** A JavaScript string, as its UTF-16 code units. *)
Definition jsstring : Type := list N.

(** An ASCII literal. *)
Definition units (s : string) : jsstring :=
  map N_of_ascii (list_ascii_of_string s).

Fixpoint eqb (a b : jsstring) : bool :=
  match a, b with
  | [], [] => true
  | x :: a', y :: b' => N.eqb x y && eqb a' b'
  | _, _ => false
  end.

(** WhiteSpace and LineTerminator of ECMAScript: TAB, LF, VT, FF, CR,
    SP, NBSP, U+1680, U+2000 to U+200A, LS, PS, U+202F, U+205F, U+3000
    and U+FEFF. *)
Definition is_whitespace (u : N) : bool :=
  ((9 <=? u) && (u <=? 13) || (u =? 32) || (u =? 160) || (u =? 5760)
   || (8192 <=? u) && (u <=? 8202) || (u =? 8232) || (u =? 8233)
   || (u =? 8239) || (u =? 8287) || (u =? 12288) || (u =? 65279))%N.

Fixpoint trimStart (s : jsstring) : jsstring :=
  match s with
  | [] => []
  | u :: s' => if is_whitespace u then trimStart s' else s
  end.

Definition trimEnd (s : jsstring) : jsstring :=
  List.rev (trimStart (List.rev s)).

(** [s.trim()]. *)
Definition trim (s : jsstring) : jsstring := trimEnd (trimStart s).

(** [s.split('\n')[0]]: the text before the first line feed. *)
Fixpoint first_line (s : jsstring) : jsstring :=
  match s with
  | [] => []
  | u :: s' => if (u =? 10)%N then [] else u :: first_line s'
  end.

(** [s.startsWith(prefix)]. *)
Fixpoint startsWith (s prefix : jsstring) {struct prefix} : bool :=
  match prefix, s with
  | [], _ => true
  | _ :: _, [] => false
  | p :: prefix', u :: s' => N.eqb u p && startsWith s' prefix'
  end.

(** The table [commitEmojis] (lines 85-96), in the order of the source. *)
Definition commitEmojis : list (jsstring * jsstring) :=
  [(units "feat", [10024]);
   (units "fix", [55357; 56347]);
   (units "docs", [55357; 56538]);
   (units "style", [55357; 56462]);
   (units "refactor", [55357; 56616]);
   (units "perf", [55357; 56960]);
   (units "test", [55357; 57000]);
   (units "build", [55357; 56550]);
   (units "ci", [55357; 56439]);
   (units "chore", [55357; 56615])]%N.

(** [table[key]]; [None] is [undefined]. *)
Fixpoint lookup (key : jsstring) (table : list (jsstring * jsstring))
    : option jsstring :=
  match table with
  | [] => None
  | (k, v) :: rest => if eqb key k then Some v else lookup key rest
  end.

(** [commitEmojis[commitType]], where [commitType] may be [undefined]. *)
Definition emoji_of (commitType : option jsstring) : option jsstring :=
  match commitType with
  | Some c => lookup c commitEmojis
  | None => None
  end.

(** [v || ""]. *)
Definition or_empty (v : option jsstring) : jsstring :=
  match v with
  | Some (u :: e) => u :: e
  | _ => []
  end.

(** Lines 172-180: from the text of the response to [updatedCommit]. *)
Definition titleOnly (text : jsstring) : jsstring :=
  let commitMsg := trim text in
  first_line commitMsg.

Definition commitType (text : jsstring) : option jsstring :=
  find (fun c => startsWith (titleOnly text) c) (map fst commitEmojis).

Definition updatedCommit (text : jsstring) : jsstring :=
  let emoji := or_empty (emoji_of (commitType text)) in
  (emoji ++ [32%N] ++ titleOnly text)%list.

Definition all_whitespace (s : jsstring) : bool := forallb is_whitespace s.

End Title.

(** ** Editing and committing (lines 98-109 and 188-205) *)





(** ** The API key

    [validate] of [setConfig] ([!value && "API key cannot be empty"]):
    the error message, or [None] when the input is accepted. *)
Definition setConfig_validate (value : Title.jsstring) : option string :=
  match value with
  | [] => Some "API key cannot be empty"
  | _ => None
  end.

(** The test of [loadAndValidateConfig] (line 47) on a key that is a
    string or is missing:
    [!config.apiKey || config.apiKey.trim() === ""]. *)
Definition apiKey_missing (apiKey : option Title.jsstring) : bool :=
  match apiKey with
  | None => true
  | Some [] => true
  | Some key => Title.eqb (Title.trim key) []
  end.

(** *** More sample inputs *)

Module Scenario.

(** The generation service answers with an error. *)
Definition failing : env :=
  mkEnv ConfigOk (inl "diff --git a/x b/x") (GenerationThrows "503")
        false EmptyString true None.

(** The response reports [k] tokens; the user declines the commit. *)
Definition counting (k : Z) : env :=
  mkEnv ConfigOk (inl "diff --git a/x b/x") (Response "fix: typo" (VNum k))
        false EmptyString false None.

(** No configuration file. *)
Definition unconfigured : env :=
  mkEnv ConfigMissing (inl "diff --git a/x b/x") NoResponse
        false EmptyString true None.

Definition unreadable : world := Sample.world_with Unreadable true.

Definition empty_directory : world := Sample.world_with Absent true.

(** A record without [requests]. *)
Definition uncounted : object :=
  [("tokens", VNum 7); ("timestamp", VNum Sample.now)].

(** 1500 requests and no [timestamp]. *)
Definition undated : object := [("requests", VNum 1500); ("tokens", VNum 7)].

(** 1500 requests and a [null] timestamp. *)
Definition nulldated : object :=
  [("requests", VNum 1500); ("tokens", VNum 7); ("timestamp", VNull)].


End Scenario.

(** * Properties *)

(** ** Objects *)

Lemma get_set_same (k : string) (v : value) (o : object) :
  get k (set k v o) = v.
Proof.
  induction o as [|[k' v'] rest IH]; simpl.
  - now rewrite String.eqb_refl.
  - destruct (String.eqb k k') eqn:E; simpl; rewrite E; auto.
Qed.

Lemma get_set_other (k k' : string) (v : value) (o : object) :
  k <> k' -> get k (set k' v o) = get k o.
Proof.
  intros Hne. induction o as [|[k0 v0] rest IH]; simpl.
  - destruct (String.eqb_spec k k'); congruence.
  - destruct (String.eqb_spec k' k0) as [->|]; simpl.
    + destruct (String.eqb_spec k k0); congruence.
    + now rewrite IH.
Qed.

(** ** Reading back what was written *)

Module JSONFacts.
Import JSON.

Lemma run_app (st : pstate) (a b : string) :
  run st (a ++ b) = run (run st a) b.
Proof. revert st. induction a as [|c a IH]; intros st; simpl; auto. Qed.

Lemma append_assoc (a b c : string) : ((a ++ b) ++ c = a ++ b ++ c)%string.
Proof. induction a as [|x a IH]; simpl; [reflexivity|now rewrite IH]. Qed.

Lemma append_nil_r (a : string) : (a ++ EmptyString = a)%string.
Proof. induction a as [|x a IH]; simpl; [reflexivity|now rewrite IH]. Qed.

Lemma step_plain (o : object) (k : string) (c : ascii) :
  plain_char c = true -> step (PKey o k) c = PKey o (k ++ str c).
Proof.
  destruct c as [[] [] [] [] [] [] [] []]; intros H;
    try discriminate H; reflexivity.
Qed.

Lemma run_key_chars (o : object) (k acc rest : string) :
  plain_chars k = true ->
  run (PKey o acc) (k ++ rest) = run (PKey o (acc ++ k)) rest.
Proof.
  revert acc. induction k as [|c k IH]; intros acc H;
    cbn [append run plain_chars] in *.
  - now rewrite append_nil_r.
  - apply andb_prop in H as [Hc Hk].
    rewrite (step_plain o acc c Hc), (IH _ Hk).
    unfold str. now rewrite append_assoc.
Qed.

Lemma run_key (o : object) (k rest : string) :
  plain_key k = true ->
  run (PKey o EmptyString) (k ++ String dquote rest) = run (PColon o k) rest.
Proof.
  intros H. apply andb_prop in H as [Hk Hd].
  rewrite (run_key_chars o k EmptyString _ Hk). simpl.
  destruct k as [|c0 k']; [reflexivity|].
  apply negb_true_iff in Hd. now rewrite Hd.
Qed.

(** Digits. *)

Lemma nzhead_head (d : uint) :
  nzhead d = Nil \/ head_nonzero (nzhead d) = true.
Proof. induction d; simpl; auto. Qed.

Lemma to_uint_head (p : positive) : head_nonzero (Pos.to_uint p) = true.
Proof.
  pose proof (DecimalPos.Unsigned.to_of (Pos.to_uint p)) as H.
  rewrite DecimalPos.Unsigned.of_to in H. simpl in H.
  pose proof (DecimalPos.Unsigned.to_uint_nonzero p) as Hz.
  unfold unorm in H.
  destruct (nzhead_head (Pos.to_uint p)) as [Hn|Hn].
  - rewrite Hn in H. contradiction.
  - destruct (nzhead (Pos.to_uint p)); try discriminate Hn;
      rewrite H; reflexivity.
Qed.

Lemma run_digits (o : object) (k : string) (neg : bool) (d acc : uint)
    (rest : string) :
  acc <> Nil -> lone_zero acc = false ->
  run (PDigits o k neg acc) (NilEmpty.string_of_uint d ++ rest) =
  run (PDigits o k neg (revapp d acc)) rest.
Proof.
  revert acc.
  induction d as [|d IH|d IH|d IH|d IH|d IH|d IH|d IH|d IH|d IH|d IH];
    intros acc Hnil Hzero; [reflexivity|..];
    cbn [NilEmpty.string_of_uint append run step digit uint_of_char];
    rewrite Hzero; cbn [revapp]; apply IH;
    try discriminate; destruct acc; try reflexivity; contradiction.
Qed.

Lemma step_end_number (o : object) (k : string) (neg : bool) (acc : uint)
    (c : ascii) :
  ends_number c = true ->
  step (PDigits o k neg acc) c =
  end_number o k neg acc (fun o' => after_value o' c).
Proof.
  unfold ends_number. intros H. apply orb_prop in H as [H|H];
    apply Ascii.eqb_eq in H; subst c; reflexivity.
Qed.

Lemma run_uint (o : object) (k : string) (neg : bool) (p : positive)
    (c : ascii) (rest : string) :
  ends_number c = true ->
  run (if neg then PMinus o k else PValue o k)
      (NilEmpty.string_of_uint (Pos.to_uint p) ++ String c rest) =
  run (end_number o k neg (rev (Pos.to_uint p))
         (fun o' => after_value o' c)) rest.
Proof.
  intros Hc. pose proof (to_uint_head p) as Hh.
  destruct (Pos.to_uint p) as [|d|d|d|d|d|d|d|d|d|d]; try discriminate Hh;
    destruct neg;
    cbn [NilEmpty.string_of_uint append run step digit uint_of_char is_ws];
    (rewrite run_digits by (discriminate || reflexivity));
    cbn [run]; rewrite (step_end_number _ _ _ _ c Hc); reflexivity.
Qed.

Lemma safeb_safe (n : Z) : safeb n = true <-> safe n.
Proof.
  unfold safeb, safe. rewrite andb_true_iff, !Z.leb_le. reflexivity.
Qed.

Lemma number_value_to_int (n : Z) :
  match Z.to_int n with
  | Pos d => number_value false (rev d)
  | Neg d => number_value true (rev d)
  end = n.
Proof.
  pose proof (DecimalZ.of_to n) as H. unfold number_value.
  destruct (Z.to_int n); now rewrite rev_rev.
Qed.

Lemma run_number (o : object) (k : string) (n : Z) (c : ascii)
    (rest : string) :
  safeb n = true -> ends_number c = true ->
  run (PValue o k) (number n ++ String c rest) =
  run (after_value (set k (VNum n) o) c) rest.
Proof.
  intros Hsafe Hc. pose proof (number_value_to_int n) as Hv.
  unfold number. destruct n as [|p|p]; cbn [Z.to_int] in *.
  - change (NilZero.string_of_int (Pos zero)) with "0". cbn [append run].
    change (step (PValue o k) "0") with (PDigits o k false (D0 Nil)).
    rewrite (step_end_number _ _ _ _ c Hc). reflexivity.
  - cbn [NilZero.string_of_int]. unfold NilZero.string_of_uint.
    pose proof (DecimalPos.Unsigned.to_uint_nonnil p) as Hn.
    destruct (Pos.to_uint p) eqn:E; try contradiction; rewrite <- E in *;
      rewrite (run_uint o k false p c rest Hc);
      unfold end_number; rewrite Hv, Hsafe; reflexivity.
  - cbn [NilZero.string_of_int]. unfold NilZero.string_of_uint.
    pose proof (DecimalPos.Unsigned.to_uint_nonnil p) as Hn.
    cbn [append run].
    change (step (PValue o k) "-") with (PMinus o k).
    destruct (Pos.to_uint p) eqn:E; try contradiction; rewrite <- E in *;
      rewrite (run_uint o k true p c rest Hc);
      unfold end_number; rewrite Hv, Hsafe; reflexivity.
Qed.

(** One printed line, read after the opening brace or after a comma. *)
Lemma run_line (st : pstate) (o : object) (k : string) (n : Z) (c : ascii)
    (rest : string) :
  st = PNextKey o \/ (st = PFirstKey /\ o = []) ->
  plain_key k = true -> safeb n = true -> ends_number c = true ->
  run st (line k n ++ String c rest) =
  run (after_value (set k (VNum n) o) c) rest.
Proof.
  intros Hst Hk Hn Hc. unfold line, quote, str.
  rewrite !append_assoc. cbn [append].
  set (tail := String ":" (String " " (number n ++ String c rest))).
  assert (H : run st (String " " (String " " (String dquote
                (k ++ String dquote tail))))
              = run (PKey o EmptyString) (k ++ String dquote tail)).
  { destruct Hst as [->|[-> ->]]; reflexivity. }
  rewrite H, (run_key o k _ Hk). subst tail.
  change (run (PColon o k)
              (String ":" (String " " (number n ++ String c rest))))
    with (run (PValue o k) (number n ++ String c rest)).
  apply run_number; assumption.
Qed.

Lemma has_key_app (k : string) (a b : object) :
  has_key k (a ++ b)%list = has_key k a || has_key k b.
Proof.
  induction a as [|[k' v'] a IH]; simpl; [reflexivity|].
  now rewrite IH, orb_assoc.
Qed.

Lemma set_new (k : string) (v : value) (o : object) :
  has_key k o = false -> set k v o = (o ++ [(k, v)])%list.
Proof.
  induction o as [|[k' v'] o IH]; simpl; [reflexivity|].
  intros H. apply orb_false_elim in H as [Hk Ho].
  now rewrite Hk, (IH Ho).
Qed.

Lemma distinct_keys_new (acc ms : object) (k : string) (v : value) :
  distinct_keys (acc ++ (k, v) :: ms)%list = true -> has_key k acc = false.
Proof.
  induction acc as [|[k0 v0] acc IH]; simpl; [reflexivity|].
  intros H. apply andb_prop in H as [Hk0 Hd].
  rewrite (IH Hd), orb_false_r.
  apply negb_true_iff in Hk0. rewrite has_key_app in Hk0.
  apply orb_false_elim in Hk0 as [_ Hk0]. simpl in Hk0.
  apply orb_false_elim in Hk0 as [Hk0 _].
  now rewrite String.eqb_sym.
Qed.

Lemma app_cons_assoc {A} (a : list A) (x : A) (b : list A) :
  ((a ++ [x]) ++ b = a ++ x :: b)%list.
Proof. now rewrite <- app_assoc. Qed.

Lemma run_members (ms acc : object) (st : pstate) :
  ms <> [] ->
  st = PNextKey acc \/ (st = PFirstKey /\ acc = []) ->
  integer_fields ms = true ->
  distinct_keys (acc ++ ms)%list = true ->
  run st (String.concat (String "," (str newline)) (members ms)
          ++ String newline "}") = PEnd (acc ++ ms)%list.
Proof.
  revert acc st.
  induction ms as [|[k v] ms IH]; intros acc st Hne Hst Hf Hd;
    [contradiction|].
  cbn [integer_fields forallb fst snd] in Hf.
  apply andb_prop in Hf as [Hkv Hf]. apply andb_prop in Hkv as [Hk Hv].
  destruct v as [| | |n]; try discriminate Hv. cbn [integer_value] in Hv.
  pose proof (distinct_keys_new acc ms k (VNum n) Hd) as Hnew.
  cbn [members value_text]. fold (line k n).
  destruct ms as [|[k' v'] ms'].
  - cbn [members String.concat].
    rewrite (run_line st acc k n newline "}" Hst Hk Hv eq_refl).
    rewrite (set_new _ _ _ Hnew). reflexivity.
  - assert (Hv' : exists n', v' = VNum n').
    { cbn [integer_fields forallb fst snd] in Hf.
      apply andb_prop in Hf as [Hkv' _]. apply andb_prop in Hkv' as [_ Hv'].
      destruct v'; try discriminate Hv'. eauto. }
    destruct Hv' as [n' ->].
    specialize (IH (acc ++ [(k, VNum n)])%list
                   (PNextKey (acc ++ [(k, VNum n)])%list)
                   ltac:(discriminate) (or_introl eq_refl) Hf).
    rewrite app_cons_assoc in IH. specialize (IH Hd).
    cbn [members value_text] in IH |- *.
    cbn [String.concat]. rewrite !append_assoc. cbn [append].
    rewrite (run_line st acc k n "," _ Hst Hk Hv eq_refl).
    rewrite (set_new _ _ _ Hnew).
    cbn [String.concat] in IH. rewrite !append_assoc in IH.
    exact IH.
Qed.

Lemma parse_stringify (o : object) :
  integer_record o = true -> parse (stringify o) = Parsed o.
Proof.
  intros H. apply andb_prop in H as [Hd Hf].
  destruct o as [|[k v] o]; [reflexivity|].
  assert (Hv : exists n, v = VNum n).
  { cbn [integer_fields forallb fst snd] in Hf.
    apply andb_prop in Hf as [Hkv _]. apply andb_prop in Hkv as [_ Hv].
    destruct v; try discriminate Hv. eauto. }
  destruct Hv as [n ->].
  pose proof (run_members ((k, VNum n) :: o) [] PFirstKey
                ltac:(discriminate) (or_intror (conj eq_refl eq_refl))
                Hf Hd) as Hrun.
  unfold parse, stringify. cbn [members value_text] in Hrun |- *.
  change (finish
            (run PFirstKey
               (String.concat (String "," (str newline))
                  (("  " ++ quote k ++ ": " ++ number n) :: members o)
                ++ String newline "}"))
          = Parsed ((k, VNum n) :: o)).
  rewrite Hrun. reflexivity.
Qed.

End JSONFacts.

Lemma integer_record_usage (requests tokens timestamp : Z) :
  safe requests -> safe tokens -> safe timestamp ->
  JSON.integer_record
    [("requests", VNum requests); ("tokens", VNum tokens);
     ("timestamp", VNum timestamp)] = true.
Proof.
  intros Hr Ht Hs. apply JSONFacts.safeb_safe in Hr, Ht, Hs.
  unfold JSON.integer_record, JSON.integer_fields.
  cbn [forallb fst snd JSON.integer_value]. rewrite Hr, Ht, Hs. reflexivity.
Qed.

(** ** The primitives of the run *)

Lemma saveUsage_run (usage : object) (w : world) :
  saveUsage usage w = (Return tt, saved usage w).
Proof.
  unfold saveUsage, try_catch, writeFileAsync, saved, console_error.
  now destruct (writable w).
Qed.

Lemma resetUsageIfNeeded_run (usage : object) (w : world) :
  resetUsageIfNeeded (Some usage) w =
  (Return (resetIfWindowExpired usage (clock w (ticks w))),
   saved (resetIfWindowExpired usage (clock w (ticks w))) (ticked w)).
Proof.
  unfold resetUsageIfNeeded, bind, Date_now.
  now rewrite saveUsage_run.
Qed.

Lemma loadUsage_absent (w : world) :
  usage_file w = Absent ->
  loadUsage w = (Return (Some (fresh (clock w (ticks w)))), ticked w).
Proof.
  intros H. unfold loadUsage, try_catch, bind, existsSync.
  now rewrite H.
Qed.

Lemma loadUsage_parsed (w : world) (text : string) (usage : object) :
  usage_file w = Content text -> JSON.parse text = JSON.Parsed usage ->
  loadUsage w = (Return (Some usage), w).
Proof.
  intros Hf Hp.
  unfold loadUsage, try_catch, bind, existsSync, readFileAsync, JSON_parse.
  rewrite Hf; cbv beta iota delta [negb]. now rewrite Hf, Hp.
Qed.

Lemma loadUsage_corrupt (w : world) (text : string) :
  usage_file w = Content text -> JSON.parse text = JSON.SyntaxError ->
  loadUsage w =
  (Return None,
   emit (ConsoleError ["Error loading usage data";
                       "SyntaxError: Unexpected token"]) w).
Proof.
  intros Hf Hp.
  unfold loadUsage, try_catch, bind, existsSync, readFileAsync, JSON_parse.
  rewrite Hf; cbv beta iota delta [negb]. now rewrite Hf, Hp.
Qed.

Lemma generation_invoked_saved (usage : object) (w : world) :
  generation_invoked (saved usage w) = generation_invoked w.
Proof. unfold saved. now destruct (writable w). Qed.

Lemma generation_invoked_ticked (w : world) :
  generation_invoked (ticked w) = generation_invoked w.
Proof. reflexivity. Qed.

Lemma loadUsage_quiet (w : world) :
  generation_invoked (snd (loadUsage w)) = generation_invoked w /\
  usage_file (snd (loadUsage w)) = usage_file w.
Proof.
  unfold loadUsage, try_catch, bind, existsSync, readFileAsync, JSON_parse.
  destruct (usage_file w) eqn:Hf; cbv beta iota delta [negb];
    rewrite ?Hf; cbn; auto.
  destruct (JSON.parse text); cbn; auto.
Qed.

(** [main] up to the quota test: the record that is tested is the
    loaded record after [resetIfWindowExpired]. *)
Lemma main_run (e : env) (w w1 : world) (loaded : object) :
  loadUsage w = (Return (Some loaded), w1) ->
  main e w =
  let usage := resetIfWindowExpired loaded (clock w1 (ticks w1)) in
  match checkAdmission usage with
  | Denied reason =>
      (Exit 1, emit (ConsoleError [reason]) (saved usage (ticked w1)))
  | Allowed => generateAndCommit e usage (saved usage (ticked w1))
  end.
Proof.
  intros Hload. unfold main, bind at 1. rewrite Hload.
  unfold bind at 1. rewrite resetUsageIfNeeded_run. cbv zeta.
  now destruct (checkAdmission _).
Qed.

(** ** The daily window *)

Lemma window_expired_iff (usage : object) (now windowStart : Z) :
  get "timestamp" usage = VNum windowStart ->
  js_gt (js_sub (VNum now) (get "timestamp" usage)) (VNum oneDay) = true <->
  now - windowStart > 86400000.
Proof.
  intros ->. unfold js_gt, js_sub, relational, arith, oneDay; simpl.
  rewrite Z.gtb_gt. reflexivity.
Qed.

Lemma window_fresh (now : Z) :
  js_gt (js_sub (VNum now) (VNum now)) (VNum oneDay) = false.
Proof.
  unfold js_gt, js_sub, relational, arith; simpl. now rewrite Z.sub_diag.
Qed.

Lemma resetIfWindowExpired_expired (usage : object) (now windowStart : Z) :
  get "timestamp" usage = VNum windowStart ->
  now - windowStart > 86400000 ->
  resetIfWindowExpired usage now =
  set "timestamp" (VNum now) (set "requests" (VNum 0) usage).
Proof.
  intros Hts Hgt. unfold resetIfWindowExpired.
  apply (window_expired_iff usage now windowStart Hts) in Hgt.
  rewrite Hgt. reflexivity.
Qed.

Lemma resetIfWindowExpired_recent (usage : object) (now windowStart : Z) :
  get "timestamp" usage = VNum windowStart ->
  now - windowStart <= 86400000 ->
  resetIfWindowExpired usage now = usage.
Proof.
  intros Hts Hle. unfold resetIfWindowExpired.
  destruct (js_gt _ _) eqn:E; [|reflexivity].
  apply (window_expired_iff usage now windowStart Hts) in E. lia.
Qed.

(** C2.  With [windowStart] the record's timestamp: if
    [now - windowStart] exceeds 86 400 000 ms the result has request
    count 0 and window start [now]; otherwise (exactly 24 h included)
    the record comes back unchanged.  [resetUsageIfNeeded] hands its
    caller this very record, for the clock reading it takes. *)
Theorem resetIfWindowExpired_spec
    (usage : object) (now windowStart : Z) (w : world) :
  get "timestamp" usage = VNum windowStart ->
  (now - windowStart > 86400000 ->
     get "requests" (resetIfWindowExpired usage now) = VNum 0 /\
     get "timestamp" (resetIfWindowExpired usage now) = VNum now) /\
  (now - windowStart <= 86400000 ->
     resetIfWindowExpired usage now = usage) /\
  fst (resetUsageIfNeeded (Some usage) w) =
    Return (resetIfWindowExpired usage (clock w (ticks w))).
Proof.
  intros Hts. pose proof (window_expired_iff usage now windowStart Hts) as Hw.
  split; [|split].
  - intros Hgt. apply Hw in Hgt. unfold resetIfWindowExpired. rewrite Hgt.
    split; [|apply get_set_same].
    rewrite get_set_other by discriminate. apply get_set_same.
  - intros Hle. unfold resetIfWindowExpired.
    destruct (js_gt _ _); [|reflexivity].
    pose proof (proj1 Hw eq_refl). lia.
  - now rewrite resetUsageIfNeeded_run.
Qed.

Lemma resetIfWindowExpired_spec_witness :
  (get "requests" (resetIfWindowExpired Sample.expired Sample.now) = VNum 0 /\
   get "timestamp" (resetIfWindowExpired Sample.expired Sample.now)
     = VNum Sample.now) /\
  resetIfWindowExpired Sample.recent Sample.now = Sample.recent.
Proof.
  split.
  - apply (resetIfWindowExpired_spec Sample.expired Sample.now
             (Sample.now - 90000000) (Sample.world_with Absent true));
      [reflexivity | unfold Sample.now; lia].
  - apply (resetIfWindowExpired_spec Sample.recent Sample.now
             (Sample.now - 86400000) (Sample.world_with Absent true));
      [reflexivity | unfold Sample.now; lia].
Defined.

Lemma resetIfWindowExpired_twice (usage : object) (now : Z) :
  resetIfWindowExpired (resetIfWindowExpired usage now) now =
  resetIfWindowExpired usage now.
Proof.
  unfold resetIfWindowExpired at 2 3.
  destruct (js_gt (js_sub (VNum now) (get "timestamp" usage)) (VNum oneDay)) eqn:E.
  - unfold resetIfWindowExpired.
    rewrite get_set_same, window_fresh. reflexivity.
  - unfold resetIfWindowExpired. rewrite E. reflexivity.
Qed.

Lemma saved_clock (usage : object) (w : world) :
  clock (saved usage w) = clock w /\ ticks (saved usage w) = ticks w /\
  writable (saved usage w) = writable w.
Proof. unfold saved. destruct (writable w) eqn:E; cbn; auto. Qed.

Lemma usage_file_saved_twice (usage : object) (w : world) :
  usage_file (saved usage (ticked (saved usage (ticked w)))) =
  usage_file (saved usage (ticked w)).
Proof.
  unfold saved, written, emit, ticked; cbn.
  destruct (writable w); reflexivity.
Qed.

(** C5.  Resetting twice with the same [now] gives the record that
    resetting once gives; and two calls of [resetUsageIfNeeded] in a row
    that read the same time from the clock hand back the same record and
    leave the same usage file as one call. *)
Theorem resetIfWindowExpired_idempotent (usage : object) (now : Z) :
  resetIfWindowExpired (resetIfWindowExpired usage now) now =
    resetIfWindowExpired usage now /\
  forall w : world,
    clock w (ticks w) = now -> clock w (S (ticks w)) = now ->
    let once := resetUsageIfNeeded (Some usage) w in
    let twice := (u <- resetUsageIfNeeded (Some usage) ;;
                  resetUsageIfNeeded (Some u)) w in
    fst twice = fst once /\ usage_file (snd twice) = usage_file (snd once).
Proof.
  split; [apply resetIfWindowExpired_twice|].
  intros w H0 H1 once twice. subst once twice.
  unfold bind. rewrite !resetUsageIfNeeded_run.
  assert (Hc : clock (saved (resetIfWindowExpired usage (clock w (ticks w)))
                            (ticked w))
                     (ticks (saved (resetIfWindowExpired usage
                                      (clock w (ticks w))) (ticked w)))
               = now).
  { destruct (saved_clock (resetIfWindowExpired usage (clock w (ticks w)))
                          (ticked w)) as (-> & -> & _).
    exact H1. }
  rewrite Hc, H0, resetIfWindowExpired_twice. cbn [fst snd].
  split; [reflexivity|apply usage_file_saved_twice].
Qed.

Lemma resetIfWindowExpired_idempotent_witness :
  fst ((u <- resetUsageIfNeeded (Some Sample.expired) ;;
        resetUsageIfNeeded (Some u)) (Sample.world_with Absent true)) =
  fst (resetUsageIfNeeded (Some Sample.expired) (Sample.world_with Absent true)).
Proof.
  exact (proj1 (proj2 (resetIfWindowExpired_idempotent Sample.expired
                         Sample.now)
                      (Sample.world_with Absent true) eq_refl eq_refl)).
Defined.

(** C9.  The reset leaves the token count as it was, also when the
    window has expired; more generally it changes no property other
    than [requests] and [timestamp]. *)
Theorem resetIfWindowExpired_frame (usage : object) (now : Z) :
  get "tokens" (resetIfWindowExpired usage now) = get "tokens" usage /\
  forall k : string,
    k <> "requests" -> k <> "timestamp" ->
    get k (resetIfWindowExpired usage now) = get k usage.
Proof.
  assert (H : forall k : string,
             k <> "requests" -> k <> "timestamp" ->
             get k (resetIfWindowExpired usage now) = get k usage).
  { intros k Hr Ht. unfold resetIfWindowExpired.
    destruct (js_gt _ _); [|reflexivity].
    now rewrite !get_set_other. }
  split; [apply H; discriminate|exact H].
Qed.

Lemma resetIfWindowExpired_frame_witness :
  get "tokens" (resetIfWindowExpired Sample.expired Sample.now) = VNum 7.
Proof.
  apply (proj2 (resetIfWindowExpired_frame Sample.expired Sample.now)
               "tokens");
    discriminate.
Defined.

(** ** Admission *)

Lemma checkAdmission_requests (usage : object) (requestCount : Z) :
  get "requests" usage = VNum requestCount ->
  checkAdmission usage =
  if 1500 <=? requestCount then Denied rate_limit_message else Allowed.
Proof.
  intros H. unfold checkAdmission, js_ge, relational, RATE_LIMITS_RPD.
  rewrite H; simpl. rewrite Z.geb_leb. reflexivity.
Qed.

(** C1.  The quota test looks at the request counter only: with 1500
    requests or more it denies, whatever the token counter holds, and
    with 1499 it allows.  A run whose record (after the window reset) is
    denied prints the daily-limit message, exits with status 1 and never
    calls the generation service. *)
Theorem checkAdmission_daily_limit (usage : object) (requestCount : Z) :
  get "requests" usage = VNum requestCount ->
  (forall tokenCount : value,
     checkAdmission (set "tokens" tokenCount usage) = checkAdmission usage) /\
  (1500 <= requestCount ->
     checkAdmission usage
       = Denied "Rate limit exceeded: 1,500 requests per day" /\
     forall (e : env) (w w1 : world) (loaded : object),
       loadUsage w = (Return (Some loaded), w1) ->
       resetIfWindowExpired loaded (clock w1 (ticks w1)) = usage ->
       fst (main e w) = Exit 1 /\
       hd_error (trace (snd (main e w)))
         = Some (ConsoleError ["Rate limit exceeded: 1,500 requests per day"]) /\
       generation_invoked (snd (main e w)) = generation_invoked w) /\
  (requestCount = 1499 -> checkAdmission usage = Allowed).
Proof.
  intros Hreq. split; [|split].
  - intros tokenCount. unfold checkAdmission.
    now rewrite get_set_other by discriminate.
  - intros Hge.
    assert (Hden : checkAdmission usage = Denied rate_limit_message).
    { rewrite (checkAdmission_requests usage requestCount Hreq).
      destruct (Z.leb_spec 1500 requestCount); [reflexivity|lia]. }
    split; [exact Hden|].
    intros e w w1 loaded Hload Hreset.
    rewrite (main_run e w w1 loaded Hload). cbv zeta.
    rewrite Hreset, Hden. cbn [fst snd].
    split; [reflexivity|]. split; [reflexivity|].
    unfold generation_invoked at 1. cbn [emit trace existsb is_generate orb].
    fold (generation_invoked (saved usage (ticked w1))).
    rewrite generation_invoked_saved, generation_invoked_ticked.
    pose proof (proj1 (loadUsage_quiet w)) as Hq.
    now rewrite Hload in Hq.
  - intros ->. now rewrite (checkAdmission_requests usage 1499 Hreq).
Qed.

Lemma checkAdmission_daily_limit_witness :
  (fst (main Sample.session (Sample.holding Sample.exhausted)) = Exit 1 /\
   generation_invoked
     (snd (main Sample.session (Sample.holding Sample.exhausted))) = false) /\
  checkAdmission (Sample.record 1499 7 Sample.now) = Allowed.
Proof.
  split.
  - destruct (checkAdmission_daily_limit Sample.exhausted 1500 eq_refl)
      as (_ & Hdenied & _).
    destruct (Hdenied ltac:(lia)) as (_ & Hrun).
    destruct (Hrun Sample.session (Sample.holding Sample.exhausted)
                   (Sample.holding Sample.exhausted) Sample.exhausted
                   eq_refl eq_refl) as (Hexit & _ & Hgen).
    split; [exact Hexit | exact Hgen].
  - exact (proj2 (proj2 (checkAdmission_daily_limit
                           (Sample.record 1499 7 Sample.now) 1499 eq_refl))
                 eq_refl).
Defined.

(** C6.  Whenever [loadUsage] yields a record, [main] applies the
    window reset to it before the quota test: the record tested is the
    reset record, which is never past its window at the time of the
    reset; and a record whose window started more than 24 hours ago is
    admitted whatever its request count was, the count being 0 again. *)
Theorem admission_after_reset (e : env) (w w1 : world) (loaded : object) :
  loadUsage w = (Return (Some loaded), w1) ->
  let now := clock w1 (ticks w1) in
  let usage := resetIfWindowExpired loaded now in
  main e w =
    match checkAdmission usage with
    | Denied reason =>
        (Exit 1, emit (ConsoleError [reason]) (saved usage (ticked w1)))
    | Allowed => generateAndCommit e usage (saved usage (ticked w1))
    end /\
  js_gt (js_sub (VNum now) (get "timestamp" usage)) (VNum 86400000) = false /\
  forall windowStart : Z,
    get "timestamp" loaded = VNum windowStart ->
    now - windowStart > 86400000 ->
    get "requests" usage = VNum 0 /\
    checkAdmission usage = Allowed /\
    main e w = generateAndCommit e usage (saved usage (ticked w1)).
Proof.
  intros Hload now usage.
  pose proof (main_run e w w1 loaded Hload) as Hmain. cbv zeta in Hmain.
  fold now in Hmain. fold usage in Hmain.
  split; [exact Hmain|]. split.
  - subst usage. unfold resetIfWindowExpired.
    destruct (js_gt (js_sub (VNum now) (get "timestamp" loaded)) (VNum oneDay)) eqn:E.
    + rewrite get_set_same. apply window_fresh.
    + exact E.
  - intros windowStart Hts Hold.
    assert (Hreq : get "requests" usage = VNum 0).
    { subst usage.
      rewrite (resetIfWindowExpired_expired loaded now windowStart Hts Hold).
      rewrite get_set_other by discriminate. apply get_set_same. }
    assert (Hok : checkAdmission usage = Allowed)
      by now rewrite (checkAdmission_requests usage 0 Hreq).
    split; [exact Hreq|]. split; [exact Hok|].
    now rewrite Hmain, Hok.
Qed.

Lemma admission_after_reset_witness :
  get "requests" (resetIfWindowExpired Sample.expired Sample.now) = VNum 0 /\
  checkAdmission (resetIfWindowExpired Sample.expired Sample.now) = Allowed /\
  generation_invoked
    (snd (main Sample.session (Sample.holding Sample.expired))) = true.
Proof.
  destruct (admission_after_reset Sample.session
              (Sample.holding Sample.expired) (Sample.holding Sample.expired)
              Sample.expired eq_refl) as (_ & _ & H).
  destruct (H (Sample.now - 90000000) eq_refl ltac:(unfold Sample.now; simpl; lia))
    as (Hreq & Hadm & Hmain).
  split; [exact Hreq|]. split; [exact Hadm|].
  rewrite Hmain. reflexivity.
Defined.

(** ** Loading and saving *)

(** C8.  Without a usage file [loadUsage] returns the record with both
    counters 0 and the current time as window start; the file is still
    absent afterwards and nothing was written or logged. *)
Theorem loadUsage_fresh (w : world) :
  usage_file w = Absent ->
  fst (loadUsage w) =
    Return (Some [("requests", VNum 0); ("tokens", VNum 0);
                  ("timestamp", VNum (clock w (ticks w)))]) /\
  usage_file (snd (loadUsage w)) = Absent /\
  trace (snd (loadUsage w)) = trace w.
Proof.
  intros H. rewrite (loadUsage_absent w H). cbn [fst snd].
  split; [reflexivity|]. split; [exact H|reflexivity].
Qed.

Lemma loadUsage_fresh_witness :
  fst (loadUsage (Sample.world_with Absent true)) =
    Return (Some (Sample.record 0 0 Sample.now)) /\
  usage_file (snd (loadUsage (Sample.world_with Absent true))) = Absent.
Proof.
  destruct (loadUsage_fresh (Sample.world_with Absent true) eq_refl)
    as (Hret & Hfile & _).
  split; [exact Hret | exact Hfile].
Defined.

Lemma generateAndCommit_after_response
    (e : env) (usage : object) (w : world) (diff text : string)
    (tokens : value) :
  config e = ConfigOk -> staged_diff e = inl diff -> diff <> EmptyString ->
  generated e = Response text tokens ->
  generateAndCommit e usage w =
  let w' := saved (recordSuccess usage tokens)
              (emit (ConsoleLog [generated_banner; text])
                 (emit GenerateContent w)) in
  if continue_commit e then
    match commit_error e with
    | Some error => (Exit 1, emit (ConsoleError ["Error:"; error]) w')
    | None =>
        (Return tt,
         emit (ConsoleLog ["Commit successful."])
           (emit (GitCommit (if edit_message e then edited_message e
                             else text)) w'))
    end
  else (Return tt, emit (ConsoleLog ["Commit aborted."]) w').
Proof.
  intros Hc Hd Hne Hg.
  unfold generateAndCommit, loadAndValidateConfig, execSync_diff.
  rewrite Hc, Hd. unfold bind at 1 2. unfold ret at 1 2.
  destruct (String.eqb_spec diff EmptyString) as [|_]; [contradiction|].
  unfold try_catch, bind at 1, generateContent. rewrite Hg.
  unfold bind at 1, console_log at 1. unfold bind at 1.
  rewrite saveUsage_run. cbv zeta.
  destruct (continue_commit e); [|reflexivity].
  unfold bind, execSync_commit. destruct (commit_error e); reflexivity.
Qed.

(** C10.  [saveUsage] always returns normally.  When the write fails the
    error is logged and the file is left as it was; a run whose
    generation has succeeded then goes on to the confirmation and the
    commit exactly as after a successful write, and its outcome depends
    on the commit only. *)
Theorem saveUsage_failure_not_fatal (usage : object) (w : world) :
  fst (saveUsage usage w) = Return tt /\
  (writable w = false ->
   snd (saveUsage usage w) =
     emit (ConsoleError ["Error saving usage data:";
                         "EACCES: permission denied"]) w /\
   forall (e : env) (diff text : string) (tokens : value),
     config e = ConfigOk -> staged_diff e = inl diff -> diff <> EmptyString ->
     generated e = Response text tokens ->
     fst (generateAndCommit e usage w) =
       (if continue_commit e
        then match commit_error e with
             | Some _ => Exit 1
             | None => Return tt
             end
        else Return tt) /\
     In (ConsoleError ["Error saving usage data:";
                       "EACCES: permission denied"])
        (trace (snd (generateAndCommit e usage w)))).
Proof.
  rewrite saveUsage_run. split; [reflexivity|].
  intros Hw. split.
  - cbn [snd]. unfold saved. now rewrite Hw.
  - intros e diff text tokens Hc Hd Hne Hg.
    rewrite (generateAndCommit_after_response e usage w diff text tokens
               Hc Hd Hne Hg).
    cbv zeta. unfold saved. cbn [writable emit]. rewrite Hw.
    destruct (continue_commit e); [destruct (commit_error e)|];
      cbn; auto.
Qed.

Lemma saveUsage_failure_not_fatal_witness :
  fst (generateAndCommit Sample.session Sample.recent
         (Sample.world_with Absent false)) = Return tt /\
  usage_file (snd (saveUsage Sample.recent (Sample.world_with Absent false)))
    = Absent.
Proof.
  destruct (saveUsage_failure_not_fatal Sample.recent
              (Sample.world_with Absent false)) as (_ & H).
  destruct (H eq_refl) as (Hsave & Hrun).
  split.
  - exact (proj1 (Hrun Sample.session _ _ _ eq_refl eq_refl
                       ltac:(discriminate) eq_refl)).
  - rewrite Hsave. reflexivity.
Defined.

(** C4, where the code departs from it.  For every text that the
    reader of this development rejects as a syntax error (it abstains on
    some texts that [JSON.parse] rejects too, see [JSON.parse]):
    [loadUsage] does not fail, it logs the error and returns
    [undefined].  The run then ends, not on the storage error, but on
    the TypeError of the window reset reading [timestamp] of
    [undefined], which nobody catches; no write of the usage file and no
    call of the generation service has happened. *)
Theorem loadUsage_corrupt_file (e : env) (w : world) (text : string) :
  usage_file w = Content text -> JSON.parse text = JSON.SyntaxError ->
  loadUsage w =
    (Return None,
     emit (ConsoleError ["Error loading usage data";
                         "SyntaxError: Unexpected token"]) w) /\
  fst (main e w) =
    Throw "TypeError: Cannot read properties of undefined (reading 'timestamp')" /\
  generation_invoked (snd (main e w)) = generation_invoked w /\
  usage_file (snd (main e w)) = usage_file w.
Proof.
  intros Hf Hp. pose proof (loadUsage_corrupt w text Hf Hp) as Hload.
  split; [exact Hload|].
  assert (Hmain : main e w =
            (Throw "TypeError: Cannot read properties of undefined (reading 'timestamp')",
             ticked (emit (ConsoleError ["Error loading usage data";
                                         "SyntaxError: Unexpected token"]) w))).
  { unfold main, bind at 1. rewrite Hload. reflexivity. }
  rewrite Hmain. repeat split.
Qed.

Lemma loadUsage_corrupt_file_witness :
  fst (loadUsage Sample.corrupt) = Return None /\
  generation_invoked (snd (main Sample.session Sample.corrupt)) = false.
Proof.
  destruct (loadUsage_corrupt_file Sample.session Sample.corrupt _
              eq_refl eq_refl) as (Hload & _ & Hgen & _).
  split; [now rewrite Hload | exact Hgen].
Defined.

(** The failing input of C4: on the text [{ oops] [loadUsage] returns
    normally. *)
Lemma loadUsage_corrupt_returns :
  usage_file Sample.corrupt = Content "{ oops" /\
  JSON.parse "{ oops" = JSON.SyntaxError /\
  fst (loadUsage Sample.corrupt) = Return None /\
  ~ (exists error : string, fst (loadUsage Sample.corrupt) = Throw error).
Proof.
  repeat split. intros [error H]. discriminate H.
Qed.

(** ** Recording a generation *)

(** What the two updates do when the response carries a number. *)
Lemma recordSuccess_numbers
    (usage : object) (requestCount tokenCount tokensUsed : Z) :
  get "requests" usage = VNum requestCount ->
  get "tokens" usage = VNum tokenCount ->
  safe (requestCount + 1) -> safe (tokenCount + tokensUsed) ->
  get "requests" (recordSuccess usage (VNum tokensUsed))
    = VNum (requestCount + 1) /\
  get "tokens" (recordSuccess usage (VNum tokensUsed))
    = VNum (tokenCount + tokensUsed) /\
  get "timestamp" (recordSuccess usage (VNum tokensUsed))
    = get "timestamp" usage.
Proof.
  intros Hr Ht _ _. unfold recordSuccess.
  rewrite get_set_same, !(get_set_other "requests" "tokens") by discriminate.
  rewrite get_set_same, !(get_set_other "tokens" "requests") by discriminate.
  rewrite !(get_set_other "timestamp") by discriminate.
  now rewrite Hr, Ht.
Qed.

(** A first run in a fresh directory whose response reports 250
    tokens leaves [{requests: 1, tokens: 250, timestamp: now}] on disk. *)
Example first_run_with_token_count :
  usage_file
    (snd (main (mkEnv ConfigOk (inl "diff --git a/x b/x")
                  (Response "fix: typo" (VNum 250)) false EmptyString true None)
               (Sample.world_with Absent true))) =
  Content (JSON.stringify (Sample.record 1 250 Sample.now)).
Proof. reflexivity. Qed.

(** C3, at the input where the code departs from it.  When the response
    carries no [tokens] property the token counter is not left as it
    was: it becomes NaN, for every record, and the file written next
    holds [null] for it.  After a first run in a fresh directory the
    usage file is the text of [{requests: 1, tokens: null, ...}]. *)
Theorem recordSuccess_undefined_tokens (usage : object) :
  get "tokens" (recordSuccess usage VUndefined) = VNaN /\
  recordSuccess (Sample.record 0 0 Sample.now) VUndefined =
    [("requests", VNum 1); ("tokens", VNaN); ("timestamp", VNum Sample.now)] /\
  usage_file (snd (main Sample.session (Sample.world_with Absent true))) =
    Content (JSON.stringify [("requests", VNum 1); ("tokens", VNull);
                             ("timestamp", VNum Sample.now)]).
Proof.
  split; [|split; reflexivity].
  unfold recordSuccess. rewrite get_set_same.
  unfold js_add, arith. now destruct (ToNumber _).
Qed.



(** * Further properties of the code *)

(** ** Recording a generation, continued *)

(** X1.  When the response carries a number, the two updates add 1 to
    the request counter and the reported tokens to the token counter,
    and leave every other property of the record as it was. *)
Theorem recordSuccess_counts
    (usage : object) (requestCount tokenCount tokensUsed : Z) :
  get "requests" usage = VNum requestCount ->
  get "tokens" usage = VNum tokenCount ->
  safe (requestCount + 1) -> safe (tokenCount + tokensUsed) ->
  get "requests" (recordSuccess usage (VNum tokensUsed))
    = VNum (requestCount + 1) /\
  get "tokens" (recordSuccess usage (VNum tokensUsed))
    = VNum (tokenCount + tokensUsed) /\
  forall k : string,
    k <> "requests" -> k <> "tokens" ->
    get k (recordSuccess usage (VNum tokensUsed)) = get k usage.
Proof.
  intros Hr Ht Hsr Hst.
  destruct (recordSuccess_numbers usage requestCount tokenCount tokensUsed
              Hr Ht Hsr Hst) as (H1 & H2 & _).
  split; [exact H1|]. split; [exact H2|].
  intros k Hk1 Hk2. unfold recordSuccess.
  now rewrite !get_set_other.
Qed.

Lemma recordSuccess_counts_witness :
  get "requests" (recordSuccess Sample.recent (VNum 250)) = VNum 4 /\
  get "tokens" (recordSuccess Sample.recent (VNum 250)) = VNum 257 /\
  get "timestamp" (recordSuccess Sample.recent (VNum 250))
    = get "timestamp" Sample.recent.
Proof.
  destruct (recordSuccess_counts Sample.recent 3 7 250 eq_refl eq_refl)
    as (H1 & H2 & H3).
  - unfold safe, MAX_SAFE_INTEGER. lia.
  - unfold safe, MAX_SAFE_INTEGER. lia.
  - split; [exact H1|]. split; [exact H2|].
    apply H3; discriminate.
Defined.

(** ** What a run leaves in the usage file *)

(** The part of [main] after the quota test either leaves the usage
    file alone or replaces it by the text of the incremented record. *)
Lemma generateAndCommit_file (e : env) (usage : object) (w : world) :
  usage_file (snd (generateAndCommit e usage w)) = usage_file w \/
  exists text tokens,
    generated e = Response text tokens /\
    usage_file (snd (generateAndCommit e usage w)) =
      Content (JSON.stringify (recordSuccess usage tokens)).
Proof.
  unfold generateAndCommit, loadAndValidateConfig, execSync_diff,
    generateContent, execSync_commit, saveUsage, writeFileAsync, try_catch,
    bind, ret, throw, console_log, console_error, process_exit.
  destruct (config e); cbn; auto.
  destruct (staged_diff e) as [diff|err]; cbn; auto.
  destruct (String.eqb diff EmptyString); cbn; auto.
  destruct (generated e) as [err| |text tokens] eqn:Hg; cbn; auto.
  destruct (writable w) eqn:Hw; cbn.
  - right. exists text, tokens. split; [reflexivity|].
    destruct (continue_commit e); cbn; [|reflexivity].
    destruct (commit_error e); reflexivity.
  - left. destruct (continue_commit e); cbn; [|reflexivity].
    destruct (commit_error e); reflexivity.
Qed.

Lemma generateAndCommit_without_response
    (e : env) (usage : object) (w : world) :
  (forall text tokens, generated e <> Response text tokens) ->
  usage_file (snd (generateAndCommit e usage w)) = usage_file w.
Proof.
  intros Hno.
  destruct (generateAndCommit_file e usage w) as [H|(text & tokens & Hg & _)];
    [exact H|].
  now apply Hno in Hg.
Qed.

Lemma usage_file_saved (usage : object) (w : world) :
  writable w = true -> usage_file (saved usage w) = Content (JSON.stringify usage).
Proof. intros H. unfold saved. now rewrite H. Qed.

Lemma loadUsage_world (w : world) :
  writable (snd (loadUsage w)) = writable w /\
  clock (snd (loadUsage w)) = clock w.
Proof.
  unfold loadUsage, try_catch, bind, existsSync, readFileAsync, JSON_parse.
  destruct (usage_file w) eqn:Hf; cbv beta iota delta [negb];
    rewrite ?Hf; cbn; auto.
  destruct (JSON.parse text); cbn; auto.
Qed.

(** X2.  A run that gets no response from the generation service (the
    call throws, or its result has no response), whatever the
    configuration and the diff, does not count: afterwards the usage
    file holds the record as the window reset left it. *)
Theorem failed_generation_not_counted
    (e : env) (w w1 : world) (loaded : object) :
  loadUsage w = (Return (Some loaded), w1) ->
  (forall text tokens, generated e <> Response text tokens) ->
  writable w = true ->
  usage_file (snd (main e w)) =
    Content (JSON.stringify
               (resetIfWindowExpired loaded (clock w1 (ticks w1)))).
Proof.
  intros Hload Hno Hw.
  assert (Hw1 : writable (ticked w1) = true).
  { pose proof (proj1 (loadUsage_world w)) as H. rewrite Hload in H.
    cbn in H |- *. congruence. }
  rewrite (main_run e w w1 loaded Hload). cbv zeta.
  destruct (checkAdmission _); cbn [snd].
  - rewrite (generateAndCommit_without_response _ _ _ Hno).
    now apply usage_file_saved.
  - cbn. now apply usage_file_saved.
Qed.

Lemma failed_generation_not_counted_witness :
  usage_file (snd (main Scenario.failing (Sample.holding Sample.recent))) =
  Content (JSON.stringify Sample.recent).
Proof.
  apply (failed_generation_not_counted Scenario.failing
           (Sample.holding Sample.recent) (Sample.holding Sample.recent)
           Sample.recent eq_refl);
    [discriminate | reflexivity].
Defined.

(** X3.  Once the service has answered, the generation is counted
    whatever happens next: whether the user edits the message, declines
    the commit, or [git commit] fails, the usage file holds the
    incremented record. *)
Theorem usage_counted_before_confirmation
    (e : env) (usage : object) (w : world) (diff text : string)
    (tokens : value) :
  config e = ConfigOk -> staged_diff e = inl diff -> diff <> EmptyString ->
  generated e = Response text tokens -> writable w = true ->
  usage_file (snd (generateAndCommit e usage w)) =
    Content (JSON.stringify (recordSuccess usage tokens)).
Proof.
  intros Hc Hd Hne Hg Hw.
  rewrite (generateAndCommit_after_response e usage w diff text tokens
             Hc Hd Hne Hg).
  cbv zeta. unfold saved. cbn [writable emit]. rewrite Hw.
  destruct (continue_commit e); [destruct (commit_error e)|]; reflexivity.
Qed.

Lemma usage_counted_before_confirmation_witness :
  usage_file (snd (generateAndCommit (Scenario.counting 250) Sample.recent
                     Scenario.empty_directory)) =
  Content (JSON.stringify (Sample.record 4 257 (Sample.now - 86400000))).
Proof.
  exact (usage_counted_before_confirmation (Scenario.counting 250)
           Sample.recent Scenario.empty_directory _ _ _
           eq_refl eq_refl ltac:(discriminate) eq_refl eq_refl).
Defined.

(** X4.  A usage file that exists but cannot be read is handled like a
    corrupt one: [loadUsage] logs the error and returns [undefined], and
    the run ends with the uncaught TypeError of the window reset, before
    any write of the usage file and any call of the generation service. *)
Theorem loadUsage_unreadable_file (e : env) (w : world) :
  usage_file w = Unreadable ->
  loadUsage w =
    (Return None,
     emit (ConsoleError ["Error loading usage data";
                         "EACCES: permission denied"]) w) /\
  fst (main e w) =
    Throw "TypeError: Cannot read properties of undefined (reading 'timestamp')" /\
  generation_invoked (snd (main e w)) = generation_invoked w /\
  usage_file (snd (main e w)) = Unreadable.
Proof.
  intros Hf.
  assert (Hload : loadUsage w =
                  (Return None,
                   emit (ConsoleError ["Error loading usage data";
                                       "EACCES: permission denied"]) w)).
  { unfold loadUsage, try_catch, bind, existsSync, readFileAsync.
    rewrite Hf; cbv beta iota delta [negb]. now rewrite Hf. }
  split; [exact Hload|].
  assert (Hmain : main e w =
            (Throw "TypeError: Cannot read properties of undefined (reading 'timestamp')",
             ticked (emit (ConsoleError ["Error loading usage data";
                                         "EACCES: permission denied"]) w))).
  { unfold main, bind at 1. rewrite Hload. reflexivity. }
  rewrite Hmain. cbn. auto.
Qed.

Lemma loadUsage_unreadable_file_witness :
  fst (loadUsage Scenario.unreadable) = Return None /\
  generation_invoked (snd (main Sample.session Scenario.unreadable)) = false.
Proof.
  destruct (loadUsage_unreadable_file Sample.session Scenario.unreadable
              eq_refl) as (Hload & _ & Hgen & _).
  split; [now rewrite Hload | exact Hgen].
Defined.

(** X5.  In a directory without usage file every run creates the file
    before it looks at anything else: whatever the configuration, the
    diff and the service do, the first effect of the run is the write of
    the fresh record and the file exists afterwards. *)
Theorem first_run_creates_usage_file (e : env) (w : world) :
  usage_file w = Absent -> writable w = true ->
  clock w (S (ticks w)) - clock w (ticks w) <= 86400000 ->
  (exists later : list event,
     trace (snd (main e w)) =
     (later ++ WriteFile (JSON.stringify (fresh (clock w (ticks w))))
            :: trace w)%list) /\
  exists text : string, usage_file (snd (main e w)) = Content text.
Proof.
  intros Hf Hw Hclock.
  rewrite (main_run e w (ticked w) (fresh (clock w (ticks w)))
             (loadUsage_absent w Hf)).
  cbv zeta. cbn [clock ticks ticked].
  rewrite (resetIfWindowExpired_recent (fresh (clock w (ticks w)))
             (clock w (S (ticks w))) (clock w (ticks w)) eq_refl Hclock).
  change (checkAdmission (fresh (clock w (ticks w)))) with Allowed.
  cbv iota.
  set (u := fresh (clock w (ticks w))).
  assert (Hs : saved u (ticked (ticked w)) =
               written (JSON.stringify u) (ticked (ticked w))).
  { unfold saved. cbn [writable ticked]. now rewrite Hw. }
  rewrite Hs. set (w2 := written (JSON.stringify u) (ticked (ticked w))).
  split.
  - assert (Hext : forall usage w0, exists later,
               trace (snd (generateAndCommit e usage w0)) =
               (later ++ trace w0)%list).
    { intros usage w0.
      unfold generateAndCommit, loadAndValidateConfig, execSync_diff,
        generateContent, execSync_commit, saveUsage, writeFileAsync,
        try_catch, bind, ret, throw, console_log, console_error,
        process_exit.
      destruct (config e); cbn;
        try (eexists [_]; reflexivity).
      destruct (staged_diff e) as [diff|err]; cbn;
        [|exists []; reflexivity].
      destruct (String.eqb diff EmptyString); cbn;
        [eexists [_; _]; reflexivity|].
      destruct (generated e) as [err| |text tokens]; cbn;
        [eexists [_; _]; reflexivity | eexists [_; _]; reflexivity |].
      destruct (writable w0); cbn;
        (destruct (continue_commit e); cbn;
         [destruct (commit_error e); cbn|]);
        first [ eexists [_; _; _; _; _]; reflexivity
              | eexists [_; _; _; _]; reflexivity ]. }
    destruct (Hext u w2) as [later Hl]. exists later. rewrite Hl. reflexivity.
  - destruct (generateAndCommit_file e u w2) as [H|(text & tokens & _ & H)];
      rewrite H; eauto. subst w2. cbn. eauto.
Qed.

Lemma first_run_creates_usage_file_witness :
  usage_file (snd (main Scenario.unconfigured Scenario.empty_directory)) =
  Content (JSON.stringify (Sample.record 0 0 Sample.now)).
Proof.
  destruct (first_run_creates_usage_file Scenario.unconfigured
              Scenario.empty_directory eq_refl eq_refl
              ltac:(cbn; lia)) as (_ & text & H).
  rewrite H. cbv in H. injection H as <-. reflexivity.
Defined.

(** ** Records with a missing or non-numeric field *)

(** X6.  A record whose request counter is missing or NaN is always
    admitted, and recording a generation does not repair it within the
    run: the counter is NaN afterwards and the record would be admitted
    again. *)
Theorem missing_request_count_is_admitted (usage : object) (tokens : value) :
  ToNumber (get "requests" usage) = None ->
  checkAdmission usage = Allowed /\
  get "requests" (recordSuccess usage tokens) = VNaN /\
  checkAdmission (recordSuccess usage tokens) = Allowed.
Proof.
  intros Hn.
  assert (Hreq : get "requests" (recordSuccess usage tokens) = VNaN).
  { unfold recordSuccess. rewrite get_set_other by discriminate.
    rewrite get_set_same. unfold js_add, arith. now rewrite Hn. }
  split; [|split; [exact Hreq|]].
  - unfold checkAdmission, js_ge, relational. now rewrite Hn.
  - unfold checkAdmission, js_ge, relational. now rewrite Hreq.
Qed.

Lemma missing_request_count_is_admitted_witness :
  checkAdmission Scenario.uncounted = Allowed /\
  get "requests" (recordSuccess Scenario.uncounted (VNum 250)) = VNaN.
Proof.
  destruct (missing_request_count_is_admitted Scenario.uncounted (VNum 250)
              eq_refl) as (H1 & H2 & _).
  split; [exact H1 | exact H2].
Defined.

(** X7.  The window reset on a timestamp that is not a number.  A
    record whose timestamp is missing or NaN is left unchanged by the
    reset at every time.  A run that loads a record without [timestamp]
    holding 1500 requests or more is denied whatever the clock shows,
    does not call the generation service, and leaves the record in the
    usage file as it was.  A [null] timestamp, which is what a NaN
    timestamp becomes on disk, counts as time 0: at every time later
    than 86 400 000 the reset sets the request count to 0 and the
    timestamp to the time. *)
Theorem missing_timestamp_never_resets
    (usage : object) (requestCount : Z) :
  (ToNumber (get "timestamp" usage) = None ->
   forall now : Z, resetIfWindowExpired usage now = usage) /\
  (get "timestamp" usage = VUndefined ->
   get "requests" usage = VNum requestCount -> 1500 <= requestCount ->
   forall (e : env) (w w1 : world),
     loadUsage w = (Return (Some usage), w1) ->
     fst (main e w) = Exit 1 /\
     generation_invoked (snd (main e w)) = generation_invoked w /\
     (writable w = true ->
      usage_file (snd (main e w)) = Content (JSON.stringify usage))) /\
  (get "timestamp" usage = VNull ->
   forall now : Z, now > 86400000 ->
     get "requests" (resetIfWindowExpired usage now) = VNum 0 /\
     get "timestamp" (resetIfWindowExpired usage now) = VNum now).
Proof.
  assert (Hreset : ToNumber (get "timestamp" usage) = None ->
                   forall now : Z, resetIfWindowExpired usage now = usage).
  { intros Hts now.
    unfold resetIfWindowExpired, js_gt, js_sub, relational, arith.
    rewrite Hts. reflexivity. }
  split; [exact Hreset|]. split.
  - intros Hts Hreq Hge e w w1 Hload.
    assert (Hnone : ToNumber (get "timestamp" usage) = None)
      by now rewrite Hts.
    assert (Hmain : main e w =
                    (Exit 1, emit (ConsoleError [rate_limit_message])
                               (saved usage (ticked w1)))).
    { rewrite (main_run e w w1 usage Hload). cbv zeta.
      rewrite (Hreset Hnone).
      rewrite (checkAdmission_requests usage requestCount Hreq).
      destruct (Z.leb_spec 1500 requestCount); [reflexivity|lia]. }
    rewrite Hmain. cbn [fst snd]. split; [reflexivity|]. split.
    + unfold generation_invoked at 1.
      cbn [emit trace existsb is_generate orb].
      fold (generation_invoked (saved usage (ticked w1))).
      rewrite generation_invoked_saved, generation_invoked_ticked.
      pose proof (proj1 (loadUsage_quiet w)) as Hq.
      now rewrite Hload in Hq.
    + intros Hw. cbn [emit usage_file].
      apply usage_file_saved.
      pose proof (proj1 (loadUsage_world w)) as H. rewrite Hload in H.
      cbn in H |- *. congruence.
  - intros Hts now Hnow. unfold resetIfWindowExpired.
    assert (Hgt : js_gt (js_sub (VNum now) (get "timestamp" usage))
                        (VNum oneDay) = true).
    { rewrite Hts. unfold js_gt, js_sub, relational, arith, oneDay; simpl.
      rewrite Z.sub_0_r. apply Z.gtb_gt. exact Hnow. }
    rewrite Hgt. split; [|apply get_set_same].
    rewrite get_set_other by discriminate. apply get_set_same.
Qed.

Lemma missing_timestamp_never_resets_witness :
  resetIfWindowExpired Scenario.undated (Sample.now + 1000000000000)
    = Scenario.undated /\
  fst (main Sample.session (Sample.holding Scenario.undated)) = Exit 1 /\
  get "requests" (resetIfWindowExpired Scenario.nulldated Sample.now)
    = VNum 0.
Proof.
  split; [|split].
  - exact (proj1 (missing_timestamp_never_resets Scenario.undated 1500)
                 eq_refl (Sample.now + 1000000000000)).
  - exact (proj1 (proj1 (proj2 (missing_timestamp_never_resets
                                  Scenario.undated 1500))
                        eq_refl eq_refl ltac:(lia) Sample.session
                        (Sample.holding Scenario.undated)
                        (Sample.holding Scenario.undated) eq_refl)).
  - exact (proj1 (proj2 (proj2 (missing_timestamp_never_resets
                                  Scenario.nulldated 1500))
                        eq_refl Sample.now ltac:(unfold Sample.now; lia))).
Defined.

(** ** The request counter stays within the limit *)

Lemma get_requests_recordSuccess (usage : object) (tokens : value) (n : Z) :
  get "requests" usage = VNum n ->
  get "requests" (recordSuccess usage tokens) = VNum (n + 1).
Proof.
  intros H. unfold recordSuccess. rewrite get_set_other by discriminate.
  rewrite get_set_same. now rewrite H.
Qed.

Lemma get_requests_reset (usage : object) (now n : Z) :
  get "requests" usage = VNum n ->
  get "requests" (resetIfWindowExpired usage now) = VNum n \/
  get "requests" (resetIfWindowExpired usage now) = VNum 0.
Proof.
  intros H. unfold resetIfWindowExpired. destruct (js_gt _ _); [right|now left].
  rewrite get_set_other by discriminate. apply get_set_same.
Qed.

(** X8.  No run takes the request counter beyond the limit: if the
    loaded record holds a count between 0 and 1500, the record in the
    usage file after the run, whatever the collaborators do, holds a
    count between 0 and 1500. *)
Theorem request_count_within_limit
    (e : env) (w w1 : world) (loaded : object) (requestCount : Z) :
  loadUsage w = (Return (Some loaded), w1) ->
  writable w = true ->
  get "requests" loaded = VNum requestCount ->
  0 <= requestCount <= 1500 ->
  exists (usage : object) (n : Z),
    usage_file (snd (main e w)) = Content (JSON.stringify usage) /\
    get "requests" usage = VNum n /\ 0 <= n <= 1500.
Proof.
  intros Hload Hw Hreq Hrange.
  assert (Hw1 : writable (ticked w1) = true).
  { pose proof (proj1 (loadUsage_world w)) as H. rewrite Hload in H.
    cbn in H |- *. congruence. }
  rewrite (main_run e w w1 loaded Hload). cbv zeta.
  set (usage := resetIfWindowExpired loaded (clock w1 (ticks w1))).
  assert (Hn : exists n, get "requests" usage = VNum n /\ 0 <= n <= 1500).
  { destruct (get_requests_reset loaded (clock w1 (ticks w1)) requestCount
                Hreq) as [H|H]; eexists; (split; [exact H|lia]). }
  destruct Hn as (n & Hn & Hnr).
  pose proof (checkAdmission_requests usage n Hn) as Hadm.
  destruct (Z.leb_spec 1500 n) as [Hfull|Hroom]; rewrite Hadm.
  - exists usage, n. cbn. rewrite (usage_file_saved usage _ Hw1). auto.
  - destruct (generateAndCommit_file e usage (saved usage (ticked w1)))
      as [H|(text & tokens & _ & H)]; rewrite H.
    + exists usage, n. rewrite (usage_file_saved usage _ Hw1). auto.
    + exists (recordSuccess usage tokens), (n + 1).
      split; [reflexivity|].
      split; [now apply get_requests_recordSuccess | lia].
Qed.

Lemma request_count_within_limit_witness :
  exists (usage : object) (n : Z),
    usage_file (snd (main Sample.session
                       (Sample.holding (Sample.record 1499 7 Sample.now)))) =
      Content (JSON.stringify usage) /\
    get "requests" usage = VNum n /\ 0 <= n <= 1500.
Proof.
  apply (request_count_within_limit Sample.session
           (Sample.holding (Sample.record 1499 7 Sample.now))
           (Sample.holding (Sample.record 1499 7 Sample.now))
           (Sample.record 1499 7 Sample.now) 1499 eq_refl eq_refl eq_refl).
  lia.
Defined.

(** ** A day of runs *)

Lemma generation_count_saved (usage : object) (w : world) :
  generation_count (saved usage w) = generation_count w.
Proof. unfold saved. now destruct (writable w). Qed.

Lemma saved_written (usage : object) (w : world) :
  writable w = true -> saved usage w = written (JSON.stringify usage) w.
Proof. intros H. unfold saved. now rewrite H. Qed.

(** One admitted run in which the service reports [k] tokens. *)
Lemma main_counts (e : env) (w w1 : world) (diff text : string)
    (n t ts k : Z) :
  config e = ConfigOk -> staged_diff e = inl diff -> diff <> EmptyString ->
  generated e = Response text (VNum k) ->
  loadUsage w = (Return (Some (Sample.record n t ts)), w1) ->
  writable w1 = true ->
  clock w1 (ticks w1) - ts <= 86400000 ->
  n < 1500 ->
  usage_file (snd (main e w)) =
    Content (JSON.stringify (Sample.record (n + 1) (t + k) ts)) /\
  writable (snd (main e w)) = true /\
  clock (snd (main e w)) = clock w1 /\
  generation_count (snd (main e w)) = S (generation_count w1).
Proof.
  intros Hc Hd Hne Hg Hload Hw Hclock Hn.
  rewrite (main_run e w w1 _ Hload). cbv zeta.
  rewrite (resetIfWindowExpired_recent (Sample.record n t ts)
             (clock w1 (ticks w1)) ts eq_refl Hclock).
  rewrite (checkAdmission_requests (Sample.record n t ts) n eq_refl).
  destruct (Z.leb_spec 1500 n); [lia|].
  rewrite (generateAndCommit_after_response e _ _ diff text (VNum k)
             Hc Hd Hne Hg).
  cbv zeta.
  change (recordSuccess (Sample.record n t ts) (VNum k))
    with (Sample.record (n + 1) (t + k) ts).
  rewrite (saved_written (Sample.record n t ts) (ticked w1)) by exact Hw.
  rewrite saved_written by exact Hw.
  destruct (continue_commit e); [destruct (commit_error e)|];
    cbn; auto.
Qed.

(** The run that finds the counter at the limit. *)
Lemma main_denied (e : env) (w w1 : world) (n t ts : Z) :
  loadUsage w = (Return (Some (Sample.record n t ts)), w1) ->
  clock w1 (ticks w1) - ts <= 86400000 ->
  1500 <= n ->
  fst (main e w) = Exit 1 /\
  generation_count (snd (main e w)) = generation_count w1.
Proof.
  intros Hload Hclock Hn.
  rewrite (main_run e w w1 _ Hload). cbv zeta.
  rewrite (resetIfWindowExpired_recent (Sample.record n t ts)
             (clock w1 (ticks w1)) ts eq_refl Hclock).
  rewrite (checkAdmission_requests (Sample.record n t ts) n eq_refl).
  destruct (Z.leb_spec 1500 n); [|lia].
  cbn [fst snd]. split; [reflexivity|].
  unfold generation_count. cbn [emit trace filter is_generate].
  apply generation_count_saved.
Qed.

Lemma loadUsage_record (w : world) (n t ts : Z) :
  usage_file w = Content (JSON.stringify (Sample.record n t ts)) ->
  safe n -> safe t -> safe ts ->
  loadUsage w = (Return (Some (Sample.record n t ts)), w).
Proof.
  intros Hf Hn Ht Hts.
  apply (loadUsage_parsed w _ _ Hf).
  apply JSONFacts.parse_stringify, integer_record_usage; assumption.
Qed.

Section Day.

Variables (e : env) (diff text : string) (k ts : Z) (time : nat -> Z).

Hypothesis config_ok : config e = ConfigOk.
Hypothesis diff_staged : staged_diff e = inl diff.
Hypothesis diff_not_empty : diff <> EmptyString.
Hypothesis service_answers : generated e = Response text (VNum k).
Hypothesis tokens_bounded : 0 <= k /\ 1500 * k <= MAX_SAFE_INTEGER.
Hypothesis window_start : safe ts.
Hypothesis same_day : forall i : nat, time i - ts <= 86400000.

Lemma counted_step (n : nat) (w : world) :
  (n < 1500)%nat -> counted k ts time n w ->
  counted k ts time (S n) (snd (main e w)) /\
  generation_count (snd (main e w)) = S (generation_count w).
Proof.
  intros Hn (Hf & Hw & Hc).
  assert (Hload : loadUsage w =
                  (Return (Some (Sample.record (Z.of_nat n) (Z.of_nat n * k) ts)),
                   w)).
  { apply loadUsage_record; [exact Hf| | |exact window_start];
      unfold safe, MAX_SAFE_INTEGER in *; nia. }
  destruct (main_counts e w w diff text (Z.of_nat n) (Z.of_nat n * k) ts k
              config_ok diff_staged diff_not_empty service_answers Hload Hw)
    as (Hf' & Hw' & Hc' & Hg').
  - rewrite Hc. apply same_day.
  - lia.
  - split; [|exact Hg']. unfold counted.
    rewrite Hf', Hw', Hc', Hc. repeat split.
    replace (Z.of_nat (S n)) with (Z.of_nat n + 1) by lia.
    replace ((Z.of_nat n + 1) * k) with (Z.of_nat n * k + k) by lia.
    reflexivity.
Qed.

Lemma counted_runs (m n : nat) (w : world) :
  (n + m <= 1500)%nat -> counted k ts time n w ->
  counted k ts time (n + m) (runs m e w) /\
  generation_count (runs m e w) = (m + generation_count w)%nat.
Proof.
  revert n w. induction m as [|m IH]; intros n w Hle Hcnt.
  - rewrite Nat.add_0_r. now split.
  - destruct (counted_step n w ltac:(lia) Hcnt) as (Hcnt' & Hg).
    destruct (IH (S n) _ ltac:(lia) Hcnt') as (H1 & H2).
    cbn [runs]. rewrite H2, Hg.
    replace (n + S m)%nat with (S n + m)%nat by lia.
    split; [exact H1|lia].
Qed.

(** The first run, in a directory without usage file. *)
Lemma first_run_counted (w : world) :
  usage_file w = Absent -> writable w = true -> clock w = time ->
  time (ticks w) = ts ->
  counted k ts time 1 (snd (main e w)) /\
  generation_count (snd (main e w)) = S (generation_count w).
Proof.
  intros Hf Hw Hc Hts.
  pose proof (loadUsage_absent w Hf) as Hload.
  rewrite Hc, Hts in Hload.
  destruct (main_counts e w (ticked w) diff text 0 0 ts k
              config_ok diff_staged diff_not_empty service_answers Hload Hw)
    as (Hf' & Hw' & Hc' & Hg').
  - cbn [clock ticks ticked]. rewrite Hc. apply same_day.
  - lia.
  - split; [|exact Hg']. unfold counted.
    rewrite Hf', Hw', Hc'. cbn [clock ticked]. rewrite Hc. repeat split.
    change (Z.of_nat 1) with 1.
    replace (1 * k) with (0 + k) by lia.
    reflexivity.
Qed.

Lemma day_of_runs (w : world) (n : nat) :
  usage_file w = Absent -> writable w = true -> clock w = time ->
  time (ticks w) = ts ->
  (1 <= n <= 1500)%nat ->
  counted k ts time n (runs n e w) /\
  generation_count (runs n e w) = (n + generation_count w)%nat.
Proof.
  intros Hf Hw Hc Hts Hn.
  destruct n as [|n]; [lia|]. cbn [runs].
  destruct (first_run_counted w Hf Hw Hc Hts) as (Hcnt & Hg).
  destruct (counted_runs n 1 _ ltac:(lia) Hcnt) as (H1 & H2).
  split; [exact H1|]. rewrite H2, Hg. lia.
Qed.

Lemma run_after_limit (w : world) :
  counted k ts time 1500 w ->
  fst (main e w) = Exit 1 /\
  generation_count (snd (main e w)) = generation_count w.
Proof.
  intros (Hf & Hw & Hc).
  assert (Hload : loadUsage w =
                  (Return (Some (Sample.record (Z.of_nat 1500)
                                   (Z.of_nat 1500 * k) ts)), w)).
  { apply loadUsage_record; [exact Hf| | |exact window_start];
      unfold safe, MAX_SAFE_INTEGER in *; lia. }
  apply (main_denied e w w _ _ _ Hload); [|lia].
  rewrite Hc. apply same_day.
Qed.

End Day.

(** X9.  The daily limit, end to end.  Start in a directory without
    usage file and let every run succeed, the service reporting [k]
    tokens each time, all within 24 hours of the first run.  Then each
    of the first 1500 runs calls the service and is counted: after [n]
    runs the usage file holds [n] requests and [n * k] tokens.  The run
    after the 1500th is denied with status 1 and does not call the
    service. *)
Theorem daily_limit_over_runs
    (e : env) (w : world) (diff text : string) (k : Z) :
  config e = ConfigOk -> staged_diff e = inl diff -> diff <> EmptyString ->
  generated e = Response text (VNum k) ->
  0 <= k /\ 1500 * k <= MAX_SAFE_INTEGER ->
  usage_file w = Absent -> writable w = true ->
  safe (clock w (ticks w)) ->
  (forall i : nat, clock w i - clock w (ticks w) <= 86400000) ->
  (forall n : nat, (1 <= n <= 1500)%nat ->
     usage_file (runs n e w) =
       Content (JSON.stringify
                  (Sample.record (Z.of_nat n) (Z.of_nat n * k)
                                 (clock w (ticks w)))) /\
     generation_count (runs n e w) = (n + generation_count w)%nat) /\
  fst (main e (runs 1500 e w)) = Exit 1 /\
  generation_count (snd (main e (runs 1500 e w))) =
    (1500 + generation_count w)%nat.
Proof.
  intros Hc Hd Hne Hg Hk Hf Hw Hsafe Hday.
  pose proof (day_of_runs e diff text k (clock w (ticks w)) (clock w)
                Hc Hd Hne Hg Hk Hsafe Hday w) as Hruns.
  split.
  - intros n Hn.
    destruct (Hruns n Hf Hw eq_refl eq_refl Hn) as ((Hfile & _) & Hcount).
    split; assumption.
  - destruct (Hruns 1500%nat Hf Hw eq_refl eq_refl ltac:(lia))
      as (Hcnt & Hcount).
    destruct (run_after_limit e k (clock w (ticks w)) (clock w)
                Hk Hsafe Hday _ Hcnt) as (Hexit & Hsame).
    split; [exact Hexit|]. now rewrite Hsame.
Qed.

Lemma daily_limit_over_runs_witness :
  usage_file (runs 3 (Scenario.counting 250) Scenario.empty_directory) =
    Content (JSON.stringify (Sample.record 3 750 Sample.now)) /\
  fst (main (Scenario.counting 250)
         (runs 1500 (Scenario.counting 250) Scenario.empty_directory)) = Exit 1.
Proof.
  destruct (daily_limit_over_runs (Scenario.counting 250)
              Scenario.empty_directory _ _ 250
              eq_refl eq_refl ltac:(discriminate) eq_refl
              ltac:(unfold MAX_SAFE_INTEGER; lia) eq_refl eq_refl
              ltac:(cbv; split; discriminate)
              ltac:(intros i; cbn; lia))
    as (Hruns & Hexit & _).
  split; [|exact Hexit].
  exact (proj1 (Hruns 3%nat ltac:(lia))).
Defined.

(** ** Reading back what was written, in general *)

Module PersistFacts.
Import JSON JSONFacts.





Lemma run_null (o : object) (k : string) (c : ascii) (rest : string) :
  run (PValue o k) ("null" ++ String c rest) =
  run (after_value (set k VNull o) c) rest.
Proof. reflexivity. Qed.





End PersistFacts.



(** ** The generated title *)

Module TitleFacts.
Import Title.

Lemma first_line_no_line_feed (s : jsstring) : ~ In 10%N (first_line s).
Proof.
  induction s as [|u s IH]; cbn [first_line]; [intros []|].
  destruct (N.eqb_spec u 10) as [|Hne]; [intros []|].
  intros [H|H]; [congruence|exact (IH H)].
Qed.

Lemma lookup_in (key : jsstring) (table : list (jsstring * jsstring))
    (e : jsstring) :
  lookup key table = Some e -> In e (map snd table).
Proof.
  induction table as [|[k v] table IH]; cbn; [discriminate|].
  destruct (eqb key k); [intros [= ->]; auto|auto].
Qed.

Lemma emoji_no_line_feed (ct : option jsstring) :
  ~ In 10%N (or_empty (emoji_of ct)).
Proof.
  destruct ct as [c|]; unfold emoji_of; [|intros []].
  destruct (lookup c commitEmojis) as [e|] eqn:E; [|intros []].
  apply lookup_in in E. cbn in E.
  repeat (destruct E as [<-|E];
          [cbn; intros H; repeat (destruct H as [H|H]; [discriminate H|]);
           exact H|]).
  contradiction.
Qed.

Lemma find_none_of {A} (f : A -> bool) (l : list A) :
  (forall x, In x l -> f x = false) -> find f l = None.
Proof.
  induction l as [|a l IH]; cbn; [reflexivity|].
  intros H. rewrite (H a (or_introl eq_refl)). apply IH. auto.
Qed.

Lemma all_whitespace_app (a b : jsstring) :
  all_whitespace (a ++ b)%list = all_whitespace a && all_whitespace b.
Proof. apply forallb_app. Qed.

Lemma all_whitespace_rev (a : jsstring) :
  all_whitespace (List.rev a) = all_whitespace a.
Proof.
  induction a as [|u a IH]; [reflexivity|].
  cbn. rewrite all_whitespace_app, IH. cbn.
  now rewrite andb_true_r, andb_comm.
Qed.

Lemma trimStart_whitespace (a s : jsstring) :
  all_whitespace a = true -> trimStart (a ++ s)%list = trimStart s.
Proof.
  induction a as [|u a IH]; [reflexivity|].
  cbn. intros H. apply andb_prop in H as [Hu Ha]. now rewrite Hu, IH.
Qed.

Lemma trimStart_nil (s : jsstring) :
  trimStart s = [] <-> all_whitespace s = true.
Proof.
  induction s as [|u s IH]; cbn; [tauto|].
  destruct (is_whitespace u); cbn; [exact IH|].
  split; discriminate.
Qed.

Lemma trimStart_app (s t : jsstring) :
  trimStart s <> [] -> trimStart (s ++ t)%list = (trimStart s ++ t)%list.
Proof.
  induction s as [|u s IH]; cbn; [contradiction|].
  destruct (is_whitespace u); [exact IH|reflexivity].
Qed.

Lemma trimEnd_whitespace (s t : jsstring) :
  all_whitespace t = true -> trimEnd (s ++ t)%list = trimEnd s.
Proof.
  intros H. unfold trimEnd. rewrite rev_app_distr.
  rewrite trimStart_whitespace; [reflexivity|].
  now rewrite all_whitespace_rev.
Qed.

Lemma trim_whitespace (lead text trail : jsstring) :
  all_whitespace lead = true -> all_whitespace trail = true ->
  trim (lead ++ text ++ trail)%list = trim text.
Proof.
  intros Hl Ht. unfold trim. rewrite (trimStart_whitespace lead _ Hl).
  destruct (trimStart text) as [|u r] eqn:E.
  - assert (Hall : all_whitespace (text ++ trail)%list = true).
    { rewrite all_whitespace_app, Ht, andb_true_r.
      now apply trimStart_nil. }
    apply trimStart_nil in Hall. now rewrite Hall.
  - rewrite trimStart_app by (rewrite E; discriminate).
    rewrite E. now apply trimEnd_whitespace.
Qed.

End TitleFacts.

(** X11.  The generated message is a single line: whatever the service
    answers, [updatedCommit] as built at line 180 (before any editing by
    the user) contains no line feed. *)
Theorem updatedCommit_single_line (text : Title.jsstring) :
  ~ In 10%N (Title.updatedCommit text).
Proof.
  unfold Title.updatedCommit. intros H.
  apply in_app_or in H as [H|H].
  - exact (TitleFacts.emoji_no_line_feed _ H).
  - cbn in H. destruct H as [H|H]; [discriminate H|].
    exact (TitleFacts.first_line_no_line_feed _ H).
Qed.

(** X12.  The emoji is chosen by the letters the title starts with, and
    by nothing else: for every entry of [commitEmojis], a title that
    begins with the entry's key gets the entry's emoji, whatever follows
    the key (no colon or space is required), the order of the table
    playing no role. *)
Theorem updatedCommit_prefix
    (key emoji text rest : Title.jsstring) :
  In (key, emoji) Title.commitEmojis ->
  Title.titleOnly text = (key ++ rest)%list ->
  Title.commitType text = Some key /\
  Title.updatedCommit text = (emoji ++ [32%N] ++ key ++ rest)%list.
Proof.
  intros Hin Htitle.
  unfold Title.updatedCommit, Title.commitType. rewrite Htitle.
  cbn in Hin.
  repeat (destruct Hin as [[= <- <-]|Hin]; [split; reflexivity|]).
  contradiction.
Qed.

Lemma updatedCommit_prefix_witness :
  Title.updatedCommit (Title.units "fixture data added")
  = ([55357; 56347; 32]%N ++ Title.units "fixture data added")%list.
Proof.
  exact (proj2 (updatedCommit_prefix (Title.units "fix") [55357; 56347]%N
                  (Title.units "fixture data added")
                  (Title.units "ture data added")
                  (or_intror (or_introl eq_refl)) eq_refl)).
Defined.

(** X13.  When the title starts with none of the keys of [commitEmojis]
    (the test is case sensitive and looks at the very first letters),
    no emoji is added and the message is the title after one space. *)
Theorem updatedCommit_without_type (text : Title.jsstring) :
  (forall key : Title.jsstring,
     In key (map fst Title.commitEmojis) ->
     Title.startsWith (Title.titleOnly text) key = false) ->
  Title.commitType text = None /\
  Title.updatedCommit text = (32%N :: Title.titleOnly text).
Proof.
  intros H.
  assert (Hnone : Title.commitType text = None)
    by (apply TitleFacts.find_none_of; exact H).
  split; [exact Hnone|].
  unfold Title.updatedCommit. rewrite Hnone. reflexivity.
Qed.

Lemma updatedCommit_without_type_witness :
  Title.updatedCommit (Title.units "Fix: typo")
  = (32%N :: Title.units "Fix: typo").
Proof.
  apply (updatedCommit_without_type (Title.units "Fix: typo")).
  intros key Hin. cbn in Hin.
  repeat (destruct Hin as [<-|Hin]; [reflexivity|]).
  contradiction.
Defined.

(** X14.  White space around the answer of the service does not change
    the message: leading and trailing white space (spaces, tabs, line
    breaks, and the other white space of JavaScript) is removed before
    the title is cut and the type is looked up. *)
Theorem updatedCommit_ignores_outer_whitespace
    (lead text trail : Title.jsstring) :
  Title.all_whitespace lead = true -> Title.all_whitespace trail = true ->
  Title.updatedCommit (lead ++ text ++ trail)%list = Title.updatedCommit text.
Proof.
  intros Hl Ht.
  unfold Title.updatedCommit, Title.commitType, Title.titleOnly.
  now rewrite (TitleFacts.trim_whitespace lead text trail Hl Ht).
Qed.

Lemma updatedCommit_ignores_outer_whitespace_witness :
  Title.updatedCommit ([10; 32]%N ++ Title.units "feat: add x" ++ [13; 10]%N)%list
  = Title.updatedCommit (Title.units "feat: add x").
Proof.
  apply updatedCommit_ignores_outer_whitespace; reflexivity.
Defined.

(** ** Editing and committing *)


(** ** The API key *)

(** X16.  The two checks of the API key disagree on blank keys.  Every
    key that [loadAndValidateConfig] accepts is accepted by the prompt
    of [setConfig]; but a non-empty key made of white space only is
    accepted by [setConfig] and then refused by
    [loadAndValidateConfig]. *)
Theorem apiKey_checks (key : Title.jsstring) :
  (apiKey_missing (Some key) = false -> setConfig_validate key = None) /\
  (key <> [] -> Title.all_whitespace key = true ->
   setConfig_validate key = None /\ apiKey_missing (Some key) = true).
Proof.
  split.
  - destruct key; [discriminate|reflexivity].
  - intros Hne Hws. destruct key as [|u key]; [contradiction|].
    split; [reflexivity|].
    cbn [apiKey_missing]. unfold Title.trim.
    apply TitleFacts.trimStart_nil in Hws. now rewrite Hws.
Qed.

Lemma apiKey_checks_witness :
  setConfig_validate (Title.units "   ") = None /\
  apiKey_missing (Some (Title.units "   ")) = true.
Proof.
  apply (proj2 (apiKey_checks (Title.units "   ")));
    [discriminate | reflexivity].
Defined.

(** ** Calls of the generation service *)

Lemma loadUsage_count (w : world) :
  generation_count (snd (loadUsage w)) = generation_count w.
Proof.
  unfold loadUsage, try_catch, bind, existsSync, readFileAsync, JSON_parse.
  destruct (usage_file w) eqn:Hf; cbv beta iota delta [negb];
    rewrite ?Hf; cbn; auto.
  destruct (JSON.parse text); cbn; auto.
Qed.

Lemma generateAndCommit_count (e : env) (usage : object) (w : world) :
  (generation_count (snd (generateAndCommit e usage w))
   <= S (generation_count w))%nat.
Proof.
  unfold generateAndCommit, loadAndValidateConfig, execSync_diff,
    generateContent, execSync_commit, saveUsage, writeFileAsync, try_catch,
    bind, ret, throw, console_log, console_error, process_exit.
  destruct (config e); cbn; auto.
  destruct (staged_diff e) as [diff|err]; cbn; auto.
  destruct (String.eqb diff EmptyString); cbn; auto.
  destruct (generated e) as [err| |text tokens]; cbn; auto.
  destruct (writable w); cbn;
    (destruct (continue_commit e); cbn; [destruct (commit_error e); cbn|]);
    auto.
Qed.

(** X17.  A run calls the generation service at most once: there is no
    retry, whatever the usage file holds and whatever the collaborators
    do. *)
Theorem main_calls_service_at_most_once (e : env) (w : world) :
  (generation_count (snd (main e w)) <= S (generation_count w))%nat.
Proof.
  pose proof (loadUsage_count w) as Hload.
  unfold main, bind at 1.
  destruct (loadUsage w) as [[[usage|]| | |] w1]; cbn [snd] in Hload |- *;
    try (rewrite Hload; auto; fail).
  - unfold bind at 1. rewrite resetUsageIfNeeded_run.
    set (u := resetIfWindowExpired usage (clock w1 (ticks w1))).
    assert (Hs : generation_count (saved u (ticked w1)) = generation_count w)
      by (rewrite generation_count_saved; exact Hload).
    destruct (checkAdmission u).
    + rewrite <- Hs. apply generateAndCommit_count.
    + cbn. fold (generation_count (saved u (ticked w1))). rewrite Hs. auto.
  - cbn. fold (generation_count w1). rewrite Hload. auto.
Qed.
